(** * official/mnist/mnist.py: the MNIST estimator driver

    A shallow embedding of [official/mnist/mnist.py].  The script only
    composes framework objects, so the embedding is symbolic: a framework
    object is the record of the constructor call that builds it, a tensor
    is the term of the graph operations that produce it, and every call
    that leaves the script is an entry of an event trace.  Python
    exceptions carry their class, their message and the source line of
    the [raise] (the traceback line). *)

From Stdlib Require Import ZArith QArith.
From stdpp Require Import base option list strings gmap.

Open Scope string_scope.
Open Scope list_scope.
Open Scope Z_scope.

(** ** Python values, exceptions *)

(** The values that flow through [flags] and [params]. *)
Inductive PyVal :=
| PNone
| PBool (b : bool)
| PInt (z : Z)
| PStr (s : string).

#[global] Instance PyVal_eq_dec : EqDecision PyVal.
Proof. solve_decision. Defined.

(** Python truthiness, as used by [if use_tpu and ...]. *)
Definition truthy (v : PyVal) : bool :=
  match v with
  | PNone => false
  | PBool b => b
  | PInt z => negb (z =? 0)
  | PStr s => negb (String.eqb s "")
  end.

(** [v == 'literal'] for a string literal. *)
Definition eq_str (v : PyVal) (lit : string) : bool :=
  match v with
  | PStr s => String.eqb s lit
  | _ => false
  end.

Inductive ExnClass :=
| RuntimeError
| AssertionError
| KeyError
| NameError
| ZeroDivisionError.

#[global] Instance ExnClass_eq_dec : EqDecision ExnClass.
Proof. solve_decision. Defined.

Record Exn := mkExn {
  exn_class : ExnClass;
  exn_msg : string;
  exn_line : Z              (* line of mnist.py that raised *)
}.

#[global] Instance Exn_eq_dec : EqDecision Exn.
Proof. solve_decision. Defined.

(** ** Framework objects *)

Inductive Activation := relu.

Inductive Layer :=
| Reshape (target_shape : list Z)
| Conv2D (filters kernel_size : Z) (padding : string) (data_format : PyVal)
         (activation : option Activation)
| MaxPooling2D (pool_size strides : Z * Z) (padding : string)
               (data_format : PyVal)
| Flatten
| Dense (units : Z) (activation : option Activation)
| Dropout (rate : Q).

(** [tf.keras.Sequential(layers)]. *)
Record Sequential := mkSequential { layers : list Layer }.

(** Graph terms built by [model_fn]. *)
Inductive Tensor :=
| TInput (name : string)
| TApply (model : Sequential) (x : Tensor) (training : bool)
| TArgmax (x : Tensor) (axis : Z)
| TSoftmax (x : Tensor)
| TSparseSoftmaxCrossEntropy (labels logits : Tensor)
| TAccuracy (labels predictions : Tensor)
| TNoOp
| TMinimize (learning_rate : Q) (loss : Tensor).

(** A function of the module passed as a value. *)
Inductive FnRef := fn_model_fn | fn_metric_fn.

(** [tf.ConfigProto(...)]. *)
Record ConfigProto := mkConfigProto {
  inter_op_parallelism_threads : Z;
  intra_op_parallelism_threads : Z;
  allow_soft_placement : bool;
  log_device_placement : bool
}.

(** [tf.contrib.distribute.*Strategy]. *)
Inductive Distribution :=
| OneDeviceStrategy (device : string)
| MirroredStrategy (num_gpus : Z).

(** [TPUClusterResolver(tpu, zone=, project=)]. *)
Record TPUClusterResolver := mkTPUClusterResolver {
  resolver_tpu : option string;
  resolver_zone : option string;
  resolver_project : option string
}.

Record TPUConfig := mkTPUConfig {
  iterations_per_loop : Z;
  num_shards : Z
}.

(** [tf.contrib.tpu.RunConfig] and [tf.estimator.RunConfig]. *)
Inductive RunConfig :=
| TPURunConfig (cluster : TPUClusterResolver) (model_dir : string)
               (session_config : ConfigProto) (tpu_config : TPUConfig)
| EstimatorRunConfig (model_dir : string) (train_distribute : Distribution)
                     (session_config : ConfigProto).

(** [tf.contrib.tpu.TPUEstimator] and [tf.estimator.Estimator]. *)
Inductive EstimatorObj :=
| TPUEstimator (model_fn : FnRef) (use_tpu : bool)
               (train_batch_size eval_batch_size : Z)
               (params : gmap string PyVal) (config : RunConfig)
| Estimator (model_fn : FnRef) (config : RunConfig)
            (params : gmap string PyVal).

Definition estimator_params (e : EstimatorObj) : gmap string PyVal :=
  match e with
  | TPUEstimator _ _ _ _ params _ => params
  | Estimator _ _ params => params
  end.

(** The parent parsers handed to [base.Parser.__init__], as the
    constructor calls that build them. *)
Inductive ParentParser :=
| BaseParser (multi_gpu num_gpu : bool)
| AcceleratorParser (simple_help num_gpus tpu : bool)
| ImageModelParser
| ExportParser.

Record Parser := mkParser {
  parser_parents : list ParentParser;
  parser_simple_help : bool;
  parser_defaults : gmap string PyVal
}.

(** The namespace returned by [parse_args]: the attributes the script
    reads.  An integer flag is a [Z], a flag compared with [None] an
    option. *)
Module flags.
Record t := mk {
  num_gpus : Z;
  data_format : option string;
  inter_op_parallelism_threads : Z;
  intra_op_parallelism_threads : Z;
  tpu : option string;
  tpu_zone : option string;
  tpu_gcp_project : option string;
  model_dir : string;
  iterations_per_loop : Z;
  num_tpu_shards : Z;
  batch_size : Z;
  hooks : list string;
  train_epochs : Z;
  epochs_between_evals : Z;
  stop_threshold : option Q;
  export_dir : option string
}.
End flags.

(** ** The effect monad: a trace of outgoing calls, and exceptions *)

Inductive DType := float32.

Inductive Event :=
| EvNewLayer (l : Layer)
| EvNewSequential (m : Sequential)
| EvParseArgs (parser : Parser) (args : list string)
| EvNewEstimator (e : EstimatorObj)
| EvGetTrainHooks (hooks : list string) (batch_size : Z)
| EvTrain (input_fn : string)
| EvEvaluate (input_fn : string)
| EvPrint
| EvPlaceholder (dtype : DType) (shape : list (option Z))
| EvBuildServingInputFn (keys : list string)
| EvExportSavedModel (export_dir : string).

Definition M (A : Type) : Type := (list Event * (Exn + A))%type.

#[global] Instance M_ret : MRet M := λ A a, ([], inr a).
#[global] Instance M_bind : MBind M := λ A B f m,
  match m with
  | (t, inl e) => (t, inl e)
  | (t, inr a) => let '(t', r) := f a in (t ++ t', r)
  end.

Definition raise {A} (c : ExnClass) (msg : string) (line : Z) : M A :=
  ([], inl (mkExn c msg line)).

Definition emit (e : Event) : M unit := ([e], inr tt).

Definition trace {A} (m : M A) : list Event := fst m.
Definition outcome {A} (m : M A) : Exn + A := snd m.

(** [d[key]] evaluated at [line]. *)
Definition getitem {V} (d : gmap string V) (key : string) (line : Z) : M V :=
  match d !! key with
  | Some v => mret v
  | None => raise KeyError key line
  end.

(** ** [create_model] *)

(** Modelled from the spec: [mnist_dataset.IMAGE_SIZE], a constant of the
    imported module [official.datasets.image.mnist_dataset]; the spec's data
    model gives 28x28 images, and so does the docstring of [create_model]. *)
Definition IMAGE_SIZE : Z := 28.

Definition new_layer (l : Layer) : M Layer := emit (EvNewLayer l);; mret l.

Definition create_model (data_format : PyVal) (image_size : Z) : M Sequential :=
  input_shape ←
    (if eq_str data_format "channels_first"
     then mret [1; image_size; image_size]
     else if eq_str data_format "channels_last"
          then mret [image_size; image_size; 1]
          else raise AssertionError "" 59);
  max_pool ← new_layer (MaxPooling2D (2, 2) (2, 2) "same" data_format);
  l0 ← new_layer (Reshape input_shape);
  l1 ← new_layer (Conv2D 32 5 "same" data_format (Some relu));
  l3 ← new_layer (Conv2D 64 5 "same" data_format (Some relu));
  l5 ← new_layer Flatten;
  l6 ← new_layer (Dense 1024 (Some relu));
  l7 ← new_layer (Dropout 0.4);
  l8 ← new_layer (Dense 10 None);
  let model := mkSequential [l0; l1; max_pool; l3; max_pool; l5; l6; l7; l8] in
  emit (EvNewSequential model);;
  mret model.

(** ** [metric_fn] and [model_fn] *)

Definition LEARNING_RATE : Q := 1e-4.

(** [tf.estimator.ModeKeys]; [OTHER] stands for any value that is none of
    the three keys, so that every comparison [mode == ModeKeys.X] fails. *)
Inductive Mode := TRAIN | EVAL | PREDICT | OTHER.

#[global] Instance Mode_eq_dec : EqDecision Mode.
Proof. solve_decision. Defined.

(** [features] is a tensor or a dict of tensors ([isinstance(image, dict)]). *)
Inductive Features :=
| FTensor (t : Tensor)
| FDict (d : gmap string Tensor).

Inductive SpecClass := EstimatorSpec | TPUEstimatorSpec.

(** The keyword arguments of the spec constructors; an argument that is
    not passed is [None]. *)
Record Spec := mkSpec {
  spec_class : SpecClass;
  spec_mode : Mode;
  spec_predictions : option (gmap string Tensor);
  spec_export_outputs : option (gmap string (gmap string Tensor));
  spec_loss : option Tensor;
  spec_train_op : option Tensor;
  spec_eval_metric_ops : option (gmap string Tensor);
  spec_eval_metrics : option (FnRef * list Tensor)
}.

Definition guard_msg : string := "mode PREDICT is not yet supported for TPUs.".

Section ModelFn.

(** [tf.contrib.distribute.has_distribution_strategy()], read from the
    framework's context when [metric_fn] runs. *)
Variable has_distribution_strategy : bool.

Definition metric_fn (labels logits : Tensor) : gmap string Tensor :=
  let accuracy :=
    if has_distribution_strategy then TNoOp
    else TAccuracy labels (TArgmax logits 1) in
  {[ "accuracy" := accuracy ]}.

(** Lines 102-109: the first guard, the model, the image. *)
Definition model_fn_entry (features : Features) (mode : Mode)
    (params : gmap string PyVal) : M (PyVal * Sequential * Tensor) :=
  use_tpu ← getitem params "use_tpu" 102;
  (if truthy use_tpu && bool_decide (mode = PREDICT)
   then raise RuntimeError guard_msg 104
   else mret tt);;
  data_format ← getitem params "data_format" 106;
  model ← create_model data_format IMAGE_SIZE;
  image ← match features with
          | FTensor t => mret t
          | FDict d => getitem d "image" 109
          end;
  mret (use_tpu, model, image).

(** Lines 111-162: the three mode branches; falling off the end returns
    [None]. *)
Definition model_fn_branches (use_tpu : PyVal) (model : Sequential)
    (image labels : Tensor) (mode : Mode) : M (option Spec) :=
  if bool_decide (mode = PREDICT) then
    (if truthy use_tpu
     then raise RuntimeError guard_msg 113
     else mret tt);;
    let logits := TApply model image false in
    let predictions : gmap string Tensor :=
      {[ "classes" := TArgmax logits 1;
         "probabilities" := TSoftmax logits ]} in
    mret (Some (mkSpec EstimatorSpec mode (Some predictions)
                  (Some {[ "classify" := predictions ]})
                  None None None None))
  else if bool_decide (mode = TRAIN) then
    let logits := TApply model image true in
    let loss := TSparseSoftmaxCrossEntropy labels logits in
    let train_op := TMinimize LEARNING_RATE loss in
    if truthy use_tpu
    then mret (Some (mkSpec TPUEstimatorSpec mode None None
                       (Some loss) (Some train_op) None None))
    else mret (Some (mkSpec EstimatorSpec mode None None
                       (Some loss) (Some train_op) None None))
  else if bool_decide (mode = EVAL) then
    let logits := TApply model image false in
    let loss := TSparseSoftmaxCrossEntropy labels logits in
    if truthy use_tpu
    then mret (Some (mkSpec TPUEstimatorSpec mode None None
                       (Some loss) None None
                       (Some (fn_metric_fn, [labels; logits]))))
    else mret (Some (mkSpec EstimatorSpec mode None None
                       (Some loss) None
                       (Some (metric_fn labels logits)) None))
  else mret None.

Definition model_fn (features : Features) (labels : Tensor) (mode : Mode)
    (params : gmap string PyVal) : M (option Spec) :=
  '(use_tpu, model, image) ← model_fn_entry features mode params;
  model_fn_branches use_tpu model image labels mode.

End ModelFn.

(** ** [construct_estimator] *)

Definition construct_estimator (fl : flags.t) (use_tpu : bool) : M EstimatorObj :=
  let use_gpu := 0 <? flags.num_gpus fl in
  let data_format :=
    match flags.data_format fl with
    | Some d => d
    | None => if use_gpu || use_tpu then "channels_first" else "channels_last"
    end in
  let params : gmap string PyVal :=
    {[ "use_tpu" := PBool use_tpu; "data_format" := PStr data_format ]} in
  let session_config :=
    mkConfigProto (flags.inter_op_parallelism_threads fl)
                  (flags.intra_op_parallelism_threads fl) true true in
  if use_tpu then
    let tpu_cluster_resolver :=
      mkTPUClusterResolver (flags.tpu fl) (flags.tpu_zone fl)
                           (flags.tpu_gcp_project fl) in
    let run_config :=
      TPURunConfig tpu_cluster_resolver (flags.model_dir fl) session_config
        (mkTPUConfig (flags.iterations_per_loop fl) (flags.num_tpu_shards fl)) in
    let est := TPUEstimator fn_model_fn true (flags.batch_size fl)
                 (flags.batch_size fl) params run_config in
    emit (EvNewEstimator est);; mret est
  else
    let distribution :=
      if flags.num_gpus fl =? 0 then OneDeviceStrategy "device:CPU:0"
      else if flags.num_gpus fl =? 1 then OneDeviceStrategy "device:GPU:0"
      else MirroredStrategy (flags.num_gpus fl) in
    let run_config :=
      EstimatorRunConfig (flags.model_dir fl) distribution session_config in
    let est := Estimator fn_model_fn run_config params in
    emit (EvNewEstimator est);; mret est.

(** ** [MNISTArgParser] *)

(** [parser.set_defaults] with keyword arguments: a dict update of the
    parser's defaults, one keyword after the other. *)
Definition set_defaults (kwargs : list (string * PyVal)) (p : Parser) : Parser :=
  mkParser (parser_parents p) (parser_simple_help p)
    (foldl (λ d kv, <[ kv.1 := kv.2 ]> d) (parser_defaults p) kwargs).

Section ArgParser.

(** The defaults a [base.Parser] holds once [__init__] has taken over its
    parents; [base.Parser] and the parent parsers belong to the imported
    package [official.utils.arg_parsers]. *)
Variable inherited_defaults : list ParentParser → gmap string PyVal.

Definition base_Parser (parents : list ParentParser) (simple_help : bool)
  : Parser :=
  mkParser parents simple_help (inherited_defaults parents).

Definition MNISTArgParser (simple_help : bool) : Parser :=
  set_defaults
    [("data_dir", PStr "/tmp/mnist_data");
     ("model_dir", PStr "/tmp/mnist_model");
     ("batch_size", PInt 100);
     ("train_epochs", PInt 40)]
    (base_Parser
       [BaseParser false false;
        AcceleratorParser simple_help true true;
        ImageModelParser;
        ExportParser]
       simple_help).

End ArgParser.

(** ** [main] *)

(** The names bound at module level when [main] runs: the imports, the
    constant, the functions and the class of mnist.py. *)
Definition module_globals : gset string :=
  list_to_set
    ["absolute_import"; "division"; "print_function"; "argparse"; "sys"; "tf";
     "mnist_dataset"; "accelerator"; "base"; "parsers"; "hooks_helper";
     "model_helpers"; "LEARNING_RATE"; "create_model"; "metric_fn";
     "model_fn"; "construct_estimator"; "main"; "MNISTArgParser"].

Definition name_error (name : string) : string :=
  "name '" +:+ name +:+ "' is not defined".

(** Evaluating a global name at [line]. *)
Definition load_global (globals : gset string) (name : string) (line : Z)
  : M string :=
  if bool_decide (name ∈ globals) then mret name
  else raise NameError (name_error name) line.

(** [a // b] at [line]. *)
Definition floordiv (a b : Z) (line : Z) : M Z :=
  if b =? 0 then raise ZeroDivisionError "integer division or modulo by zero" line
  else mret (a / b).

Section Main.

(** The module namespace [main] runs in. *)
Variable globals : gset string.
(** [base.Parser.__init__] and [parse_args], from the imported parser
    modules and argparse. *)
Variable inherited_defaults : list ParentParser → gmap string PyVal.
Variable parse_args : Parser → list string → flags.t.
(** What the [i]-th call of [evaluate] returns. *)
Variable evaluate_results : nat → gmap string Q.
(** [model_helpers.past_stop_threshold], from the imported module
    [official.utils.misc.model_helpers]. *)
Variable past_stop_threshold : option Q → Q → bool.

(** Lines 233-240: [n] iterations are left, [i] have been started. *)
Fixpoint train_eval_loop (fl : flags.t) (n i : nat) : M unit :=
  match n with
  | O => mret tt
  | S n' =>
      train_input_fn ← load_global globals "train_input_fn" 234;
      emit (EvTrain train_input_fn);;
      eval_input_fn ← load_global globals "eval_input_fn" 235;
      emit (EvEvaluate eval_input_fn);;
      let eval_results := evaluate_results i in
      emit EvPrint;;
      accuracy ← getitem eval_results "accuracy" 239;
      if past_stop_threshold (flags.stop_threshold fl) accuracy
      then mret tt
      else train_eval_loop fl n' (S i)
  end.

(** Lines 243-248. *)
Definition export_model (fl : flags.t) : M unit :=
  match flags.export_dir fl with
  | Some export_dir =>
      emit (EvPlaceholder float32 [None; Some 28; Some 28]);;
      emit (EvBuildServingInputFn ["image"]);;
      emit (EvExportSavedModel export_dir)
  | None => mret tt
  end.

Definition main (argv : list string) : M unit :=
  let parser := MNISTArgParser inherited_defaults true in
  emit (EvParseArgs parser (tail argv));;
  let fl := parse_args parser (tail argv) in
  let use_tpu := bool_decide (flags.tpu fl ≠ None) in
  mnist_classifier ← construct_estimator fl use_tpu;
  emit (EvGetTrainHooks (flags.hooks fl) (flags.batch_size fl));;
  n ← floordiv (flags.train_epochs fl) (flags.epochs_between_evals fl) 233;
  train_eval_loop fl (Z.to_nat n) 0;;
  export_model fl.

End Main.

(** ** Vocabulary of the properties *)

(** The layer list of the source, lines 69-87, for a given input shape. *)
Definition mnist_layers (input_shape : list Z) (data_format : PyVal) : list Layer :=
  [Reshape input_shape;
   Conv2D 32 5 "same" data_format (Some relu);
   MaxPooling2D (2, 2) (2, 2) "same" data_format;
   Conv2D 64 5 "same" data_format (Some relu);
   MaxPooling2D (2, 2) (2, 2) "same" data_format;
   Flatten;
   Dense 1024 (Some relu);
   Dropout 0.4;
   Dense 10 None].

(** [params["use_tpu"]] is true, in the sense of the test [if use_tpu and
    ...], and the mode is PREDICT. *)
Definition tpu_predict (mode : Mode) (params : gmap string PyVal) : Prop :=
  (∃ v, params !! "use_tpu" = Some v ∧ truthy v = true) ∧ mode = PREDICT.

(** A line of [model_fn] is a guard site when the code of [model_fn] that
    contains it, run from some state, raises the TPU-predict error there. *)
Definition guard_site (line : Z) : Prop :=
  (∃ features mode params,
     outcome (model_fn_entry features mode params) =
       inl (mkExn RuntimeError guard_msg line)) ∨
  (∃ h use_tpu model image labels mode,
     outcome (model_fn_branches h use_tpu model image labels mode) =
       inl (mkExn RuntimeError guard_msg line)).

(** The [params] of a TPU run, as [construct_estimator] builds them. *)
Definition example_params : gmap string PyVal :=
  {[ "use_tpu" := PBool true; "data_format" := PStr "channels_first" ]}.

Definition cpu_params : gmap string PyVal :=
  {[ "use_tpu" := PBool false; "data_format" := PStr "channels_last" ]}.

Definition session_config_of (fl : flags.t) : ConfigProto :=
  mkConfigProto (flags.inter_op_parallelism_threads fl)
                (flags.intra_op_parallelism_threads fl) true true.

Definition example_flags : flags.t :=
  flags.mk 2 None 0 0 None None None "/tmp/mnist_model" 50 8 100 ["LoggingTensorHook"]
           40 1 None (Some "/tmp/mnist_saved_model").

Definition iteration_calls : list Event :=
  [EvTrain "train_input_fn"; EvEvaluate "eval_input_fn"; EvPrint].

Fixpoint iterations (k : nat) : list Event :=
  match k with
  | O => []
  | S k' => iteration_calls ++ iterations k'
  end.

Definition example_argv : list string :=
  ["mnist.py"; "--num_gpus"; "2"; "--export_dir"; "/tmp/mnist_saved_model"].

Definition example_parse_args (p : Parser) (args : list string) : flags.t :=
  example_flags.

Definition example_evaluate_results (i : nat) : gmap string Q :=
  {[ "accuracy" := 0.99%Q; "loss" := 0.03%Q ]}.

Definition example_past_stop_threshold (stop_threshold : option Q) (accuracy : Q)
  : bool :=
  match stop_threshold with
  | None => false
  | Some t => Qle_bool t accuracy
  end.

Definition no_inherited_defaults (parents : list ParentParser)
  : gmap string PyVal := ∅.

(** The shape a model reshapes its input to, and the units of its final
    dense layer. *)
Definition input_shape_of (model : Sequential) : option (list Z) :=
  match head (layers model) with
  | Some (Reshape shape) => Some shape
  | _ => None
  end.

Definition output_units (model : Sequential) : option Z :=
  match last (layers model) with
  | Some (Dense units _) => Some units
  | _ => None
  end.

Definition export_flags : flags.t :=
  flags.mk 0 None 0 0 None None None "/tmp/mnist_model" 50 8 100 [] 0 1 None
           (Some "/tmp/mnist_saved_model").

Definition export_parse_args (p : Parser) (args : list string) : flags.t :=
  export_flags.


(** The layers a trace constructs, in the order of their construction. *)
Definition constructed_layers (t : list Event) : list Layer :=
  omap (λ e, match e with EvNewLayer l => Some l | _ => None end) t.

Definition is_max_pool (l : Layer) : bool :=
  match l with MaxPooling2D _ _ _ _ => true | _ => false end.

(** The applications of a model inside a graph term, each with its
    [training] argument. *)
Fixpoint applications (t : Tensor) : list (Sequential * bool) :=
  match t with
  | TInput _ | TNoOp => []
  | TApply model x training => (model, training) :: applications x
  | TArgmax x _ | TSoftmax x | TMinimize _ x => applications x
  | TSparseSoftmaxCrossEntropy a b | TAccuracy a b =>
      applications a ++ applications b
  end.

Definition dict_values {V} (d : option (gmap string V)) : list V :=
  match d with
  | Some m => (map_to_list m).*2
  | None => []
  end.

(** The tensor [model_fn] feeds the model with, lines 107-109. *)
Definition image_of (features : Features) : option Tensor :=
  match features with
  | FTensor t => Some t
  | FDict d => d !! "image"
  end.

(** Every tensor a spec holds. *)
Definition spec_tensors (s : Spec) : list Tensor :=
  dict_values (spec_predictions s)
  ++ concat (dict_values <$> (Some <$> dict_values (spec_export_outputs s)))
  ++ option_list (spec_loss s)
  ++ option_list (spec_train_op s)
  ++ dict_values (spec_eval_metric_ops s)
  ++ match spec_eval_metrics s with Some (_, args) => args | None => [] end.


Definition bad_format_params : gmap string PyVal :=
  {[ "use_tpu" := PBool false; "data_format" := PStr "NCHW" ]}.

(** The same flags with another [--num_gpus]. *)
Definition with_num_gpus (n : Z) (fl : flags.t) : flags.t :=
  flags.mk n (flags.data_format fl) (flags.inter_op_parallelism_threads fl)
    (flags.intra_op_parallelism_threads fl) (flags.tpu fl) (flags.tpu_zone fl)
    (flags.tpu_gcp_project fl) (flags.model_dir fl) (flags.iterations_per_loop fl)
    (flags.num_tpu_shards fl) (flags.batch_size fl) (flags.hooks fl)
    (flags.train_epochs fl) (flags.epochs_between_evals fl)
    (flags.stop_threshold fl) (flags.export_dir fl).

Definition negative_gpus_flags : flags.t := with_num_gpus (-1) example_flags.

Definition bad_format_flags : flags.t :=
  flags.mk 0 (Some "NCHW") 0 0 None None None "/tmp/mnist_model" 50 8 100 []
           40 1 None None.

(** The three calls every run of [main] starts with, lines 222-230. *)
Definition startup_calls (parser : Parser) (argv : list string)
    (est : EstimatorObj) (fl : flags.t) : list Event :=
  [EvParseArgs parser (tail argv); EvNewEstimator est;
   EvGetTrainHooks (flags.hooks fl) (flags.batch_size fl)].

(** The exceptions of [main]'s own statements. *)
Definition zero_division : Exn :=
  mkExn ZeroDivisionError "integer division or modulo by zero" 233.
Definition train_input_fn_error : Exn :=
  mkExn NameError "name 'train_input_fn' is not defined" 234.
Definition eval_input_fn_error : Exn :=
  mkExn NameError "name 'eval_input_fn' is not defined" 235.
Definition accuracy_error : Exn := mkExn KeyError "accuracy" 239.

(** The module namespace once a caller has bound the two input functions
    in it. *)
Definition bound_globals : gset string :=
  {[ "train_input_fn"; "eval_input_fn" ]} ∪ module_globals.

(** The calls of the export, lines 244-248. *)
Definition export_calls (export_dir : option string) : list Event :=
  match export_dir with
  | Some d => [EvPlaceholder float32 [None; Some 28; Some 28];
               EvBuildServingInputFn ["image"]; EvExportSavedModel d]
  | None => []
  end.

(** Every evaluate call of a trace stands right after a train call, and
    both are made with the input function of their line. *)
Definition evaluate_follows_train (t : list Event) : Prop :=
  ∀ p f, t !! p = Some (EvEvaluate f) →
         f = "eval_input_fn" ∧
         ∃ q, p = S q ∧ t !! q = Some (EvTrain "train_input_fn").

Definition is_evaluate (e : Event) : bool :=
  match e with EvEvaluate _ => true | _ => false end.

(** The [j]-th evaluation has an accuracy that is not past the threshold,
    resp. that is past it. *)
Definition keeps_going (evaluate_results : nat → gmap string Q)
    (past_stop_threshold : option Q → Q → bool) (fl : flags.t) (j : nat) : Prop :=
  ∃ a, evaluate_results j !! "accuracy" = Some a ∧
       past_stop_threshold (flags.stop_threshold fl) a = false.

Definition stops_at (evaluate_results : nat → gmap string Q)
    (past_stop_threshold : option Q → Q → bool) (fl : flags.t) (j : nat) : Prop :=
  ∃ a, evaluate_results j !! "accuracy" = Some a ∧
       past_stop_threshold (flags.stop_threshold fl) a = true.

(** An evaluation that reaches 99% from the third one on, and flags with
    [--stop_threshold 0.98]. *)
Definition improving_evaluate_results (i : nat) : gmap string Q :=
  {[ "accuracy" := if (i <? 2)%nat then 0.9%Q else 0.99%Q ]}.

Definition threshold_flags : flags.t :=
  flags.mk 0 None 0 0 None None None "/tmp/mnist_model" 50 8 100 []
           40 1 (Some 0.98%Q) None.

Definition threshold_parse_args (p : Parser) (args : list string) : flags.t :=
  threshold_flags.

Definition no_accuracy_results (i : nat) : gmap string Q :=
  {[ "loss" := 0.03%Q ]}.

Definition zero_interval_flags : flags.t :=
  flags.mk 0 None 0 0 None None None "/tmp/mnist_model" 50 8 100 []
           40 0 None (Some "/tmp/mnist_saved_model").

Definition zero_interval_parse_args (p : Parser) (args : list string) : flags.t :=
  zero_interval_flags.

(** [--train_epochs 40 --epochs_between_evals 50 --export_dir ...]. *)
Definition short_flags : flags.t :=
  flags.mk 0 None 0 0 None None None "/tmp/mnist_model" 50 8 100 []
           40 50 None (Some "/tmp/mnist_saved_model").

Definition short_parse_args (p : Parser) (args : list string) : flags.t :=
  short_flags.

(** The estimator fits the [--tpu] flag: a TPUEstimator holds the resolver
    of the given TPU and params with [use_tpu] true, a plain Estimator goes
    with no TPU and params with [use_tpu] false. *)
Definition fits_tpu_flag (fl : flags.t) (est : EstimatorObj) : Prop :=
  match est with
  | TPUEstimator _ use_tpu _ _ params (TPURunConfig resolver _ _ _) =>
      use_tpu = true ∧
      is_Some (flags.tpu fl) ∧
      resolver_tpu resolver = flags.tpu fl ∧
      params !! "use_tpu" = Some (PBool true)
  | TPUEstimator _ _ _ _ _ (EstimatorRunConfig _ _ _) => False
  | Estimator _ (EstimatorRunConfig _ _ _) params =>
      flags.tpu fl = None ∧
      params !! "use_tpu" = Some (PBool false)
  | Estimator _ (TPURunConfig _ _ _ _) _ => False
  end.

Definition tpu_flags : flags.t :=
  flags.mk 0 None 0 0 (Some "grpc://10.0.0.2:8470") (Some "us-central1-b")
           (Some "mnist-project") "/tmp/mnist_model" 50 8 100 [] 40 1 None None.

Definition tpu_parse_args (p : Parser) (args : list string) : flags.t :=
  tpu_flags.

(** The flags of the namespace, by name. *)
Inductive Flag :=
| F_num_gpus
| F_data_format
| F_inter_op_parallelism_threads
| F_intra_op_parallelism_threads
| F_tpu
| F_tpu_zone
| F_tpu_gcp_project
| F_model_dir
| F_iterations_per_loop
| F_num_tpu_shards
| F_batch_size
| F_hooks
| F_train_epochs
| F_epochs_between_evals
| F_stop_threshold
| F_export_dir.

#[global] Instance Flag_eq_dec : EqDecision Flag.
Proof. solve_decision. Defined.


(** An optional flag dropped when given, given when absent. *)
Definition toggle {A} (value : A) (o : option A) : option A :=
  match o with Some _ => None | None => Some value end.

(** [other] for the flag [f], [same] for every other flag. *)
Definition at_flag {A} (f g : Flag) (other same : A) : A :=
  if decide (f = g) then other else same.

(** The same namespace with another value of the flag [f]: an integer is
    incremented, an optional flag is toggled, a string or a list is
    extended. *)
Definition change (f : Flag) (fl : flags.t) : flags.t :=
  flags.mk
    (at_flag f F_num_gpus (flags.num_gpus fl + 1)
       (flags.num_gpus fl))
    (at_flag f F_data_format (toggle "channels_last" (flags.data_format fl))
       (flags.data_format fl))
    (at_flag f F_inter_op_parallelism_threads (flags.inter_op_parallelism_threads fl + 1)
       (flags.inter_op_parallelism_threads fl))
    (at_flag f F_intra_op_parallelism_threads (flags.intra_op_parallelism_threads fl + 1)
       (flags.intra_op_parallelism_threads fl))
    (at_flag f F_tpu (toggle "grpc://10.0.0.2:8470" (flags.tpu fl))
       (flags.tpu fl))
    (at_flag f F_tpu_zone (toggle "us-central1-b" (flags.tpu_zone fl))
       (flags.tpu_zone fl))
    (at_flag f F_tpu_gcp_project (toggle "mnist-project" (flags.tpu_gcp_project fl))
       (flags.tpu_gcp_project fl))
    (at_flag f F_model_dir (flags.model_dir fl +:+ "_other")
       (flags.model_dir fl))
    (at_flag f F_iterations_per_loop (flags.iterations_per_loop fl + 1)
       (flags.iterations_per_loop fl))
    (at_flag f F_num_tpu_shards (flags.num_tpu_shards fl + 1)
       (flags.num_tpu_shards fl))
    (at_flag f F_batch_size (flags.batch_size fl + 1)
       (flags.batch_size fl))
    (at_flag f F_hooks ("ProfilerHook" :: flags.hooks fl)
       (flags.hooks fl))
    (at_flag f F_train_epochs (flags.train_epochs fl + 1)
       (flags.train_epochs fl))
    (at_flag f F_epochs_between_evals (flags.epochs_between_evals fl + 1)
       (flags.epochs_between_evals fl))
    (at_flag f F_stop_threshold (toggle 0.98%Q (flags.stop_threshold fl))
       (flags.stop_threshold fl))
    (at_flag f F_export_dir (toggle "/tmp/mnist_saved_model" (flags.export_dir fl))
       (flags.export_dir fl)).










Definition is_new_estimator (e : Event) : bool :=
  match e with EvNewEstimator _ => true | _ => false end.

(** * Properties *)

(** ** Helper lemmas on the monad and on comparisons *)

Lemma eq_str_true (v : PyVal) (lit : string) :
  eq_str v lit = true ↔ v = PStr lit.
Proof.
  destruct v as [| b | z | s]; simpl; try (split; [discriminate | congruence]).
  rewrite String.eqb_eq. split; congruence.
Qed.

Lemma eq_str_false (v : PyVal) (lit : string) :
  eq_str v lit = false ↔ v ≠ PStr lit.
Proof.
  rewrite <- eq_str_true. destruct (eq_str v lit); split; congruence.
Qed.

Lemma outcome_bind_inl {A B} (m : M A) (f : A → M B) (e : Exn) :
  outcome m = inl e → outcome (m ≫= f) = inl e.
Proof. destruct m as [t [e' | a]]; simpl; congruence. Qed.

Lemma outcome_bind_inr {A B} (m : M A) (f : A → M B) (a : A) :
  outcome m = inr a → outcome (m ≫= f) = outcome (f a).
Proof.
  destruct m as [t [e' | a']]; simpl; [discriminate |].
  intros [= ->]. unfold mbind, M_bind. by destruct (f a).
Qed.

Example create_model_first :
  outcome (create_model (PStr "channels_first") 28) =
  inr (mkSequential
         [Reshape [1; 28; 28];
          Conv2D 32 5 "same" (PStr "channels_first") (Some relu);
          MaxPooling2D (2, 2) (2, 2) "same" (PStr "channels_first");
          Conv2D 64 5 "same" (PStr "channels_first") (Some relu);
          MaxPooling2D (2, 2) (2, 2) "same" (PStr "channels_first");
          Flatten; Dense 1024 (Some relu); Dropout (4 # 10); Dense 10 None]).
Proof. vm_compute. reflexivity. Qed.

Lemma create_model_channels_first (image_size : Z) :
  outcome (create_model (PStr "channels_first") image_size) =
  inr (mkSequential
         (mnist_layers [1; image_size; image_size] (PStr "channels_first"))).
Proof. reflexivity. Qed.

Lemma create_model_channels_last (image_size : Z) :
  outcome (create_model (PStr "channels_last") image_size) =
  inr (mkSequential
         (mnist_layers [image_size; image_size; 1] (PStr "channels_last"))).
Proof. reflexivity. Qed.

Lemma create_model_assert (data_format : PyVal) (image_size : Z) :
  data_format ≠ PStr "channels_first" →
  data_format ≠ PStr "channels_last" →
  create_model data_format image_size = ([], inl (mkExn AssertionError "" 59)).
Proof.
  intros H1 H2. unfold create_model.
  apply eq_str_false in H1, H2. by rewrite H1, H2.
Qed.

(** C2: for both documented data formats [create_model] returns the
    sequential model whose layers are, in order: the reshape to the input
    shape, the 32-filter 5x5 same-padded ReLU convolution, the 2x2
    max-pooling, the 64-filter 5x5 same-padded ReLU convolution, the 2x2
    max-pooling, the flatten, the 1024-unit ReLU dense layer, the dropout of
    rate 0.4 and the final 10-unit dense layer without activation. *)
Theorem create_model_topology (data_format : string) (image_size : Z) :
  data_format = "channels_first" ∨ data_format = "channels_last" →
  outcome (create_model (PStr data_format) image_size) =
  inr (mkSequential
         [Reshape (if String.eqb data_format "channels_first"
                   then [1; image_size; image_size]
                   else [image_size; image_size; 1]);
          Conv2D 32 5 "same" (PStr data_format) (Some relu);
          MaxPooling2D (2, 2) (2, 2) "same" (PStr data_format);
          Conv2D 64 5 "same" (PStr data_format) (Some relu);
          MaxPooling2D (2, 2) (2, 2) "same" (PStr data_format);
          Flatten;
          Dense 1024 (Some relu);
          Dropout 0.4;
          Dense 10 None]).
Proof.
  intros [-> | ->].
  - apply create_model_channels_first.
  - apply create_model_channels_last.
Qed.

Lemma create_model_topology_witness :
  outcome (create_model (PStr "channels_last") 28) =
  inr (mkSequential
         [Reshape [28; 28; 1];
          Conv2D 32 5 "same" (PStr "channels_last") (Some relu);
          MaxPooling2D (2, 2) (2, 2) "same" (PStr "channels_last");
          Conv2D 64 5 "same" (PStr "channels_last") (Some relu);
          MaxPooling2D (2, 2) (2, 2) "same" (PStr "channels_last");
          Flatten;
          Dense 1024 (Some relu);
          Dropout 0.4;
          Dense 10 None]).
Proof. apply (create_model_topology "channels_last" 28). right. reflexivity. Defined.

(** C7: on the two documented data formats the assertion holds and a model
    is returned; on every other value the call raises [AssertionError] at
    line 59 with an empty trace, that is before any layer is constructed. *)
Theorem create_model_total_on_documented (data_format : PyVal) (image_size : Z) :
  (data_format = PStr "channels_first" ∨ data_format = PStr "channels_last" →
   ∃ model, outcome (create_model data_format image_size) = inr model) ∧
  (data_format ≠ PStr "channels_first" ∧ data_format ≠ PStr "channels_last" →
   outcome (create_model data_format image_size) =
     inl (mkExn AssertionError "" 59) ∧
   trace (create_model data_format image_size) = []).
Proof.
  split.
  - intros [-> | ->]; eexists; reflexivity.
  - intros [H1 H2]. by rewrite create_model_assert.
Qed.

Lemma create_model_total_on_documented_witness :
  (∃ model, outcome (create_model (PStr "channels_first") 28) = inr model) ∧
  outcome (create_model (PStr "NCHW") 28) = inl (mkExn AssertionError "" 59) ∧
  trace (create_model (PStr "NCHW") 28) = [].
Proof.
  split.
  - apply (proj1 (create_model_total_on_documented (PStr "channels_first") 28)).
    left. reflexivity.
  - apply (proj2 (create_model_total_on_documented (PStr "NCHW") 28)).
    split; discriminate.
Defined.

(** ** [model_fn] *)

Ltac run_M :=
  unfold model_fn, model_fn_entry, model_fn_branches, create_model, getitem,
    new_layer, emit, raise, outcome, trace, mbind, M_bind, mret, M_ret in *.

Ltac split_cases := repeat (case_match; simpl in *; simplify_eq).

Lemma entry_runtime_error (features : Features) (mode : Mode)
    (params : gmap string PyVal) (e : Exn) :
  outcome (model_fn_entry features mode params) = inl e →
  exn_class e = RuntimeError →
  e = mkExn RuntimeError guard_msg 104 ∧ tpu_predict mode params.
Proof.
  unfold tpu_predict. run_M. intros H Hc. split_cases; try discriminate.
  match goal with
  | H : _ && _ = true |- _ => apply andb_true_iff in H as [? ?%bool_decide_eq_true]
  end.
  eauto 6.
Qed.

Lemma entry_guard_raises (features : Features) (mode : Mode)
    (params : gmap string PyVal) :
  tpu_predict mode params →
  model_fn_entry features mode params =
    ([], inl (mkExn RuntimeError guard_msg 104)).
Proof.
  intros [(v & Hv & Ht) ->]. unfold model_fn_entry, getitem.
  rewrite Hv. simpl. by rewrite Ht.
Qed.

Lemma entry_exn_line (features : Features) (mode : Mode)
    (params : gmap string PyVal) (e : Exn) :
  outcome (model_fn_entry features mode params) = inl e →
  exn_line e ∈ [102; 104; 106; 59; 109].
Proof.
  run_M. intros H. split_cases; set_solver.
Qed.

Lemma entry_returns (features : Features) (mode : Mode)
    (params : gmap string PyVal) use_tpu model image :
  outcome (model_fn_entry features mode params) = inr (use_tpu, model, image) →
  params !! "use_tpu" = Some use_tpu ∧
  truthy use_tpu && bool_decide (mode = PREDICT) = false.
Proof.
  run_M. intros H. split_cases; done.
Qed.

Lemma branches_exn (h : bool) (use_tpu : PyVal) (model : Sequential)
    (image labels : Tensor) (mode : Mode) (e : Exn) :
  outcome (model_fn_branches h use_tpu model image labels mode) = inl e ↔
  e = mkExn RuntimeError guard_msg 113 ∧ truthy use_tpu = true ∧ mode = PREDICT.
Proof.
  run_M. split.
  - intros H. split_cases.
    match goal with H : _ = true |- _ => apply bool_decide_eq_true in H end.
    done.
  - intros (-> & -> & ->). reflexivity.
Qed.

Lemma model_fn_exn (h : bool) features labels mode params e :
  outcome (model_fn h features labels mode params) = inl e →
  outcome (model_fn_entry features mode params) = inl e.
Proof.
  unfold model_fn. intros H.
  destruct (outcome (model_fn_entry features mode params)) as [e' | [[u m] i]] eqn:He.
  - rewrite (outcome_bind_inl _ _ _ He) in H. by simplify_eq.
  - rewrite (outcome_bind_inr _ _ _ He) in H. simpl in H.
    apply branches_exn in H as (_ & Ht & ->).
    apply entry_returns in He as [_ He]. by rewrite Ht in He.
Qed.

(** C1: [model_fn] raises the RuntimeError "mode PREDICT is not yet supported
    for TPUs." exactly when [params["use_tpu"]] is true and the mode is
    PREDICT; in every other case no RuntimeError is raised, so neither guard
    fires; and the lines at which the code of [model_fn] can raise this error
    are exactly two, 104 and 113. *)
Theorem model_fn_tpu_predict_guard (h : bool) (features : Features)
    (labels : Tensor) (mode : Mode) (params : gmap string PyVal) :
  ((∃ line, outcome (model_fn h features labels mode params) =
              inl (mkExn RuntimeError guard_msg line))
   ↔ tpu_predict mode params) ∧
  (¬ tpu_predict mode params →
   ∀ e, outcome (model_fn h features labels mode params) = inl e →
        exn_class e ≠ RuntimeError) ∧
  (∀ line, guard_site line ↔ line = 104 ∨ line = 113).
Proof.
  split; [| split].
  - split.
    + intros [line H]. apply model_fn_exn in H.
      by apply entry_runtime_error in H as [_ H].
    + intros H. exists 104. unfold model_fn.
      erewrite outcome_bind_inl; [reflexivity |].
      by rewrite entry_guard_raises.
  - intros Hn e H Hc. apply model_fn_exn in H.
    by apply entry_runtime_error in H as [_ H].
  - intros line. split.
    + intros [(f & m & p & H) | (h' & u & md & i & l & m & H)].
      * apply entry_runtime_error in H as [[=] _]; auto.
      * apply branches_exn in H as ([=] & _); auto.
    + intros [-> | ->].
      * left. exists (FTensor (TInput "image")), PREDICT, example_params.
        reflexivity.
      * right. exists false, (PBool true), (mkSequential []),
          (TInput "image"), (TInput "labels"), PREDICT.
        reflexivity.
Qed.

Lemma model_fn_tpu_predict_guard_witness :
  tpu_predict PREDICT example_params ∧
  ∃ line, outcome (model_fn false (FTensor (TInput "image")) (TInput "labels")
                     PREDICT example_params) =
            inl (mkExn RuntimeError guard_msg line).
Proof.
  assert (H : tpu_predict PREDICT example_params).
  { split; [| reflexivity]. exists (PBool true). split; reflexivity. }
  split; [exact H |].
  exact (proj2 (proj1 (model_fn_tpu_predict_guard false (FTensor (TInput "image"))
                         (TInput "labels") PREDICT example_params)) H).
Defined.

(** C6: whenever [model_fn] reaches its PREDICT branch, [use_tpu] is false
    (the guard of line 103 has let the call through), and no call of
    [model_fn] ends with the error raised at line 113. *)
Theorem predict_branch_guard_unreachable (h : bool) (features : Features)
    (labels : Tensor) (mode : Mode) (params : gmap string PyVal) :
  (∀ use_tpu model image,
     outcome (model_fn_entry features mode params) = inr (use_tpu, model, image) →
     mode = PREDICT → truthy use_tpu = false) ∧
  (∀ e, outcome (model_fn h features labels mode params) = inl e →
        exn_line e ≠ 113).
Proof.
  split.
  - intros u m i H ->. apply entry_returns in H as [_ H].
    by rewrite andb_true_r in H.
  - intros e H. apply model_fn_exn, entry_exn_line in H.
    intros E. rewrite E in H.
    repeat (apply elem_of_cons in H as [H | H]; [discriminate |]).
    by apply elem_of_nil in H.
Qed.

Lemma predict_branch_guard_unreachable_witness :
  outcome (model_fn_entry (FTensor (TInput "image")) PREDICT cpu_params) =
    inr (PBool false,
         mkSequential (mnist_layers [28; 28; 1] (PStr "channels_last")),
         TInput "image") ∧
  truthy (PBool false) = false.
Proof.
  split; [reflexivity |].
  eapply (proj1 (predict_branch_guard_unreachable false (FTensor (TInput "image"))
                   (TInput "labels") PREDICT cpu_params)); reflexivity.
Defined.

(** ** [construct_estimator] *)

Lemma construct_estimator_emits (fl : flags.t) (use_tpu : bool) :
  ∃ est, construct_estimator fl use_tpu = ([EvNewEstimator est], inr est).
Proof. unfold construct_estimator. destruct use_tpu; eexists; reflexivity. Qed.

Lemma model_fn_create_model (h : bool) (features : Features) (labels : Tensor)
    (mode : Mode) (params : gmap string PyVal) (use_tpu data_format : PyVal) :
  params !! "use_tpu" = Some use_tpu →
  params !! "data_format" = Some data_format →
  truthy use_tpu && bool_decide (mode = PREDICT) = false →
  trace (model_fn h features labels mode params) =
  trace (create_model data_format IMAGE_SIZE).
Proof.
  intros Hu Hd Hg. run_M. rewrite Hu, Hg, Hd. simpl.
  split_cases; reflexivity.
Qed.

(** C8: without [flags.data_format] the data format handed to the model is
    'channels_first' exactly when [flags.num_gpus > 0] or [use_tpu], and
    'channels_last' otherwise; a given [flags.data_format] is handed over
    unchanged.  The value is the [data_format] entry of the estimator's
    [params], which [model_fn] hands to [create_model]. *)
Theorem construct_estimator_data_format (fl : flags.t) (use_tpu : bool) :
  ∃ est data_format,
    outcome (construct_estimator fl use_tpu) = inr est ∧
    estimator_params est !! "data_format" = Some (PStr data_format) ∧
    (∀ h features labels,
       trace (model_fn h features labels TRAIN (estimator_params est)) =
       trace (create_model (PStr data_format) IMAGE_SIZE)) ∧
    (flags.data_format fl = None →
     (data_format = "channels_first" ↔ 0 < flags.num_gpus fl ∨ use_tpu = true) ∧
     (data_format = "channels_last" ↔ ¬ (0 < flags.num_gpus fl ∨ use_tpu = true))) ∧
    (∀ d, flags.data_format fl = Some d → data_format = d).
Proof.
  assert (Hcase :
    ∃ est data_format,
      outcome (construct_estimator fl use_tpu) = inr est ∧
      estimator_params est =
        {[ "use_tpu" := PBool use_tpu; "data_format" := PStr data_format ]} ∧
      data_format =
        match flags.data_format fl with
        | Some d => d
        | None => if (0 <? flags.num_gpus fl) || use_tpu
                  then "channels_first" else "channels_last"
        end).
  { unfold construct_estimator. destruct use_tpu; do 2 eexists;
      (split; [reflexivity |]); split; reflexivity. }
  destruct Hcase as (est & df & Ho & Hp & Hd).
  exists est, df. split; [exact Ho |].
  assert (Hl : estimator_params est !! "data_format" = Some (PStr df)).
  { rewrite Hp. reflexivity. }
  split; [exact Hl |]. split.
  - intros h features labels.
    apply (model_fn_create_model _ _ _ _ _ (PBool use_tpu)); [| exact Hl |].
    + rewrite Hp. reflexivity.
    + apply andb_false_r.
  - split.
    + intros Hn. rewrite Hn in Hd.
      destruct (Z.ltb_spec 0 (flags.num_gpus fl)) as [Hg | Hg];
        destruct use_tpu; simpl in Hd; subst df;
        (split; (split; [intros E | intros Hc]));
        first [ discriminate E
              | reflexivity
              | left; exact Hg
              | right; reflexivity
              | intros [Hc | Hc]; [lia | discriminate Hc]
              | destruct Hc as [Hc | Hc]; [lia | discriminate Hc]
              | exfalso; apply Hc; first [left; exact Hg | right; reflexivity] ].
    + intros d Hs. by rewrite Hs in Hd.
Qed.

(** ** [main] *)

Lemma train_input_fn_unbound : "train_input_fn" ∉ module_globals.
Proof. vm_compute. discriminate. Qed.

Lemma eval_input_fn_unbound : "eval_input_fn" ∉ module_globals.
Proof. vm_compute. discriminate. Qed.

Lemma emit_then {A} (e : Event) (m : M A) :
  (emit e;; m) = (e :: trace m, outcome m).
Proof. destruct m as [t r]. reflexivity. Qed.

Lemma export_model_returns (fl : flags.t) : outcome (export_model fl) = inr tt.
Proof. unfold export_model. by destruct (flags.export_dir fl). Qed.

Lemma export_model_placeholder (fl : flags.t) (dtype : DType)
    (shape : list (option Z)) :
  EvPlaceholder dtype shape ∈ trace (export_model fl) →
  shape = [None; Some 28; Some 28].
Proof.
  unfold export_model. destruct (flags.export_dir fl); simpl.
  - intros H. repeat (apply elem_of_cons in H as [H | H]; [by simplify_eq |]).
    by apply elem_of_nil in H.
  - intros H. by apply elem_of_nil in H.
Qed.

Section MainProperties.

Variable globals : gset string.
Variable inherited_defaults : list ParentParser → gmap string PyVal.
Variable parse_args : Parser → list string → flags.t.
Variable evaluate_results : nat → gmap string Q.
Variable past_stop_threshold : option Q → Q → bool.

Local Abbreviation loop :=
  (train_eval_loop globals evaluate_results past_stop_threshold).
Local Abbreviation run :=
  (main globals inherited_defaults parse_args evaluate_results
     past_stop_threshold).
Local Abbreviation parser := (MNISTArgParser inherited_defaults true).

(** [main] up to the loop: three calls, then the rest. *)
Lemma main_prefix (argv : list string) :
  let fl := parse_args parser (tail argv) in
  let rest :=
    (n ← floordiv (flags.train_epochs fl) (flags.epochs_between_evals fl) 233;
     loop fl (Z.to_nat n) 0%nat;;
     export_model fl) in
  ∃ est,
    construct_estimator fl (bool_decide (flags.tpu fl ≠ None)) =
      ([EvNewEstimator est], inr est) ∧
    run argv =
      (EvParseArgs parser (tail argv)
         :: EvNewEstimator est
         :: EvGetTrainHooks (flags.hooks fl) (flags.batch_size fl)
         :: trace rest,
       outcome rest).
Proof.
  intros fl rest.
  destruct (construct_estimator_emits fl (bool_decide (flags.tpu fl ≠ None)))
    as [est Hest].
  exists est. split; [exact Hest |].
  unfold main. fold fl.
  rewrite emit_then. rewrite Hest.
  unfold mbind at 1, M_bind at 1.
  rewrite emit_then. reflexivity.
Qed.

Lemma loop_unbound (fl : flags.t) (n i : nat) :
  "train_input_fn" ∉ globals →
  loop fl (S n) i =
    ([], inl (mkExn NameError "name 'train_input_fn' is not defined" 234)).
Proof.
  intros H. simpl. unfold load_global.
  rewrite (bool_decide_eq_false_2 _ H). reflexivity.
Qed.

(** With both input functions bound and an accuracy in every evaluation
    result, the loop runs [k ≤ n] iterations of train, evaluate, print. *)
Lemma loop_bound (fl : flags.t) (n i : nat) :
  "train_input_fn" ∈ globals →
  "eval_input_fn" ∈ globals →
  (∀ j, is_Some (evaluate_results j !! "accuracy")) →
  ∃ k, (k ≤ n)%nat ∧ loop fl n i = (iterations k, inr tt).
Proof.
  intros Ht He Hacc. revert i.
  induction n as [| n IH]; intros i.
  - exists 0%nat. split; [lia | reflexivity].
  - destruct (Hacc i) as [acc Ha].
    simpl. unfold load_global, getitem.
    rewrite !bool_decide_eq_true_2 by assumption. rewrite Ha.
    simpl.
    destruct (past_stop_threshold (flags.stop_threshold fl) acc).
    + exists 1%nat. split; [lia | reflexivity].
    + destruct (IH (S i)) as (k & Hk & Hl). rewrite Hl.
      exists (S k). split; [lia | reflexivity].
Qed.

(** Whatever happens, the loop only trains, evaluates and prints. *)
Lemma loop_events (fl : flags.t) (n i : nat) (e : Event) :
  e ∈ trace (loop fl n i) →
  (∃ f, e = EvTrain f) ∨ (∃ f, e = EvEvaluate f) ∨ e = EvPrint.
Proof.
  revert i. induction n as [| n IH]; intros i; simpl.
  - intros H. by apply elem_of_nil in H.
  - unfold load_global, getitem.
    destruct (bool_decide ("train_input_fn" ∈ globals)); simpl;
      [| intros H; by apply elem_of_nil in H].
    destruct (bool_decide ("eval_input_fn" ∈ globals)); simpl.
    2:{ intros H. apply elem_of_cons in H as [-> | H]; [eauto |].
        by apply elem_of_nil in H. }
    destruct (evaluate_results i !! "accuracy") as [acc |]; simpl.
    2:{ intros H. repeat (apply elem_of_cons in H as [-> | H]; [eauto |]).
        by apply elem_of_nil in H. }
    destruct (past_stop_threshold (flags.stop_threshold fl) acc); simpl.
    + intros H. repeat (apply elem_of_cons in H as [-> | H]; [eauto |]).
      by apply elem_of_nil in H.
    + specialize (IH (S i)).
      destruct (train_eval_loop _ _ _ fl n (S i)) as [t r]. simpl in *.
      intros H. repeat (apply elem_of_cons in H as [-> | H]; [eauto |]).
      auto.
Qed.

(** The call order of [main] in a namespace that binds both input
    functions: parse, construct, hooks, [k] iterations of train then
    evaluate, and the export after the loop. *)
Lemma main_call_order (argv : list string) :
  let fl := parse_args parser (tail argv) in
  "train_input_fn" ∈ globals →
  "eval_input_fn" ∈ globals →
  (∀ j, is_Some (evaluate_results j !! "accuracy")) →
  flags.epochs_between_evals fl ≠ 0 →
  ∃ est k,
    (k ≤ Z.to_nat (flags.train_epochs fl / flags.epochs_between_evals fl))%nat ∧
    run argv =
      ([EvParseArgs parser (tail argv); EvNewEstimator est;
        EvGetTrainHooks (flags.hooks fl) (flags.batch_size fl)]
         ++ iterations k ++ trace (export_model fl),
       inr tt).
Proof.
  intros fl Ht He Hacc Hz.
  destruct (main_prefix argv) as (est & _ & Hrun). fold fl in Hrun.
  destruct (loop_bound fl
              (Z.to_nat (flags.train_epochs fl / flags.epochs_between_evals fl))
              0 Ht He Hacc) as (k & Hk & Hl).
  exists est, k. split; [exact Hk |].
  rewrite Hrun. unfold floordiv.
  apply Z.eqb_neq in Hz. rewrite Hz.
  pose proof (export_model_returns fl) as Hx.
  destruct (export_model fl) as [tx rx]. simpl in Hx. subst rx.
  unfold mbind, M_bind, mret, M_ret, trace, outcome. simpl.
  rewrite !Hl. reflexivity.
Qed.

(** Every placeholder [main] declares has shape [None, 28, 28]. *)
Lemma main_placeholder (argv : list string) (dtype : DType)
    (shape : list (option Z)) :
  EvPlaceholder dtype shape ∈ trace (run argv) →
  shape = [None; Some 28; Some 28].
Proof.
  destruct (main_prefix argv) as (est & _ & Hrun). rewrite Hrun. clear Hrun.
  set (fl := parse_args parser (tail argv)).
  simpl. intros H.
  repeat (apply elem_of_cons in H as [H | H]; [discriminate |]).
  revert H. unfold floordiv.
  destruct (flags.epochs_between_evals fl =? 0); simpl;
    [intros H; by apply elem_of_nil in H |].
  pose proof (loop_events fl
    (Z.to_nat (flags.train_epochs fl / flags.epochs_between_evals fl)) 0
    (EvPlaceholder dtype shape)) as Hl.
  pose proof (export_model_placeholder fl dtype shape) as Hx.
  destruct (train_eval_loop _ _ _ fl _ _) as [t [e | []]];
    destruct (export_model fl) as [tx rx]; simpl in *.
  - intros H. apply Hl in H as [[f H] | [[f H] | H]]; discriminate.
  - intros H. apply elem_of_app in H as [H | H]; [| auto].
    apply Hl in H as [[f H] | [[f H] | H]]; discriminate.
Qed.

End MainProperties.

(** C4: the call order of [main] as the source has it.  mnist.py binds
    neither [train_input_fn] nor [eval_input_fn]; as soon as the flags ask for
    one iteration, [main] parses the flags, constructs the estimator, fetches
    the train hooks and then stops with a NameError at line 234, before any
    train, evaluate or export call. *)
Theorem main_train_input_fn_unbound
    (inherited_defaults : list ParentParser → gmap string PyVal)
    (parse_args : Parser → list string → flags.t)
    (evaluate_results : nat → gmap string Q)
    (past_stop_threshold : option Q → Q → bool)
    (argv : list string) :
  let fl := parse_args (MNISTArgParser inherited_defaults true) (tail argv) in
  flags.epochs_between_evals fl ≠ 0 →
  1 ≤ flags.train_epochs fl / flags.epochs_between_evals fl →
  ∃ est,
    main module_globals inherited_defaults parse_args evaluate_results
         past_stop_threshold argv =
    ([EvParseArgs (MNISTArgParser inherited_defaults true) (tail argv);
      EvNewEstimator est;
      EvGetTrainHooks (flags.hooks fl) (flags.batch_size fl)],
     inl (mkExn NameError "name 'train_input_fn' is not defined" 234)).
Proof.
  intros fl Hz Hn.
  destruct (main_prefix module_globals inherited_defaults parse_args
              evaluate_results past_stop_threshold argv) as (est & _ & Hrun).
  fold fl in Hrun. exists est. rewrite Hrun. clear Hrun.
  unfold floordiv. apply Z.eqb_neq in Hz. rewrite Hz.
  destruct (Z.to_nat (flags.train_epochs fl / flags.epochs_between_evals fl))
    as [| n] eqn:En; [lia |].
  unfold mbind, M_bind, mret, M_ret, trace, outcome. simpl.
  rewrite En, loop_unbound by apply train_input_fn_unbound. reflexivity.
Qed.

Lemma main_train_input_fn_unbound_witness :
  flags.epochs_between_evals example_flags ≠ 0 ∧
  1 ≤ flags.train_epochs example_flags / flags.epochs_between_evals example_flags ∧
  ∃ est,
    main module_globals no_inherited_defaults example_parse_args
         example_evaluate_results example_past_stop_threshold example_argv =
    ([EvParseArgs (MNISTArgParser no_inherited_defaults true) (tail example_argv);
      EvNewEstimator est;
      EvGetTrainHooks ["LoggingTensorHook"] 100],
     inl (mkExn NameError "name 'train_input_fn' is not defined" 234)).
Proof.
  split; [discriminate |]. split; [vm_compute; discriminate |].
  apply (main_train_input_fn_unbound no_inherited_defaults example_parse_args
           example_evaluate_results example_past_stop_threshold example_argv).
  - discriminate.
  - vm_compute. discriminate.
Defined.

(** C3: the estimator is chosen from the flags alone.  With [use_tpu], which
    [main] sets to [flags.tpu is not None], it is a TPUEstimator whose run
    configuration holds the TPU cluster resolver built from [flags.tpu],
    [flags.tpu_zone] and [flags.tpu_gcp_project]; otherwise it is a standard
    Estimator whose training distribution is the one-device strategy on
    device:CPU:0 for no GPU, the one-device strategy on device:GPU:0 for one
    GPU and the mirrored strategy over [flags.num_gpus] GPUs for more than
    one. *)
Theorem construct_estimator_selection (fl : flags.t) :
  (∃ params,
     outcome (construct_estimator fl true) =
     inr (TPUEstimator fn_model_fn true (flags.batch_size fl) (flags.batch_size fl)
            params
            (TPURunConfig
               (mkTPUClusterResolver (flags.tpu fl) (flags.tpu_zone fl)
                                     (flags.tpu_gcp_project fl))
               (flags.model_dir fl) (session_config_of fl)
               (mkTPUConfig (flags.iterations_per_loop fl)
                            (flags.num_tpu_shards fl))))) ∧
  (∃ params distribution,
     outcome (construct_estimator fl false) =
     inr (Estimator fn_model_fn
            (EstimatorRunConfig (flags.model_dir fl) distribution
                                (session_config_of fl))
            params) ∧
     (flags.num_gpus fl = 0 →
      distribution = OneDeviceStrategy "device:CPU:0") ∧
     (flags.num_gpus fl = 1 →
      distribution = OneDeviceStrategy "device:GPU:0") ∧
     (1 < flags.num_gpus fl →
      distribution = MirroredStrategy (flags.num_gpus fl))) ∧
  (∀ globals inherited_defaults parse_args evaluate_results past_stop_threshold
     argv,
     parse_args (MNISTArgParser inherited_defaults true) (tail argv) = fl →
     ∃ est,
       outcome (construct_estimator fl (bool_decide (flags.tpu fl ≠ None))) =
         inr est ∧
       trace (main globals inherited_defaults parse_args evaluate_results
                past_stop_threshold argv) !! 1%nat = Some (EvNewEstimator est)).
Proof.
  split; [| split].
  - eexists. reflexivity.
  - do 2 eexists. split; [reflexivity |].
    repeat split.
    + by intros ->.
    + by intros ->.
    + intros H.
      destruct (Z.eqb_spec (flags.num_gpus fl) 0) as [E | _]; [lia |].
      destruct (Z.eqb_spec (flags.num_gpus fl) 1) as [E | _]; [lia |].
      reflexivity.
  - intros g inh pa er pst argv Hfl.
    destruct (main_prefix g inh pa er pst argv) as (est & Hest & Hrun).
    rewrite Hfl in Hest, Hrun. exists est.
    rewrite Hest, Hrun. split; reflexivity.
Qed.

Lemma construct_estimator_selection_witness :
  1 < flags.num_gpus example_flags ∧
  ∃ params distribution,
    outcome (construct_estimator example_flags false) =
    inr (Estimator fn_model_fn
           (EstimatorRunConfig "/tmp/mnist_model" distribution
                               (session_config_of example_flags))
           params) ∧
    distribution = MirroredStrategy 2.
Proof.
  split; [reflexivity |].
  destruct (proj1 (proj2 (construct_estimator_selection example_flags)))
    as (params & distribution & H & _ & _ & Hm).
  exists params, distribution. split; [exact H |].
  apply Hm. reflexivity.
Defined.

Lemma construct_estimator_data_format_witness :
  flags.data_format example_flags = None ∧
  0 < flags.num_gpus example_flags ∧
  ∃ est data_format,
    outcome (construct_estimator example_flags false) = inr est ∧
    estimator_params est !! "data_format" = Some (PStr data_format) ∧
    data_format = "channels_first".
Proof.
  split; [reflexivity |]. split; [reflexivity |].
  destruct (construct_estimator_data_format example_flags false)
    as (est & df & Ho & Hp & _ & Hn & _).
  exists est, df. split; [exact Ho |]. split; [exact Hp |].
  apply (proj1 (Hn eq_refl)). left. reflexivity.
Defined.

(** C5: the data model.  For both data formats the model reshapes its input
    to one channel of [image_size] x [image_size] pixels (the channel axis is
    first for channels_first, last for channels_last), 28 x 28 by default,
    and ends in a dense layer of 10 units; every placeholder [main] declares
    for the export has shape [None, 28, 28], and [main] does declare it when
    it reaches the export. *)
Theorem data_model_shapes (image_size : Z) :
  (∃ model, outcome (create_model (PStr "channels_first") image_size) = inr model ∧
            input_shape_of model = Some [1; image_size; image_size] ∧
            output_units model = Some 10) ∧
  (∃ model, outcome (create_model (PStr "channels_last") image_size) = inr model ∧
            input_shape_of model = Some [image_size; image_size; 1] ∧
            output_units model = Some 10) ∧
  IMAGE_SIZE = 28 ∧
  (∀ globals inherited_defaults parse_args evaluate_results past_stop_threshold
     argv dtype shape,
     EvPlaceholder dtype shape ∈
       trace (main globals inherited_defaults parse_args evaluate_results
                past_stop_threshold argv) →
     shape = [None; Some 28; Some 28]) ∧
  EvPlaceholder float32 [None; Some 28; Some 28] ∈
    trace (main module_globals no_inherited_defaults export_parse_args
             example_evaluate_results example_past_stop_threshold example_argv).
Proof.
  split; [| split; [| split; [| split]]].
  - eexists. split; [apply create_model_channels_first |]. split; reflexivity.
  - eexists. split; [apply create_model_channels_last |]. split; reflexivity.
  - reflexivity.
  - intros g inh pa er pst argv dtype shape. apply main_placeholder.
  - apply list_elem_of_lookup. exists 3%nat. vm_compute. reflexivity.
Qed.

Lemma data_model_shapes_witness :
  EvPlaceholder float32 [None; Some 28; Some 28] ∈
    trace (main module_globals no_inherited_defaults export_parse_args
             example_evaluate_results example_past_stop_threshold example_argv) ∧
  [None; Some 28; Some 28] = [None; Some 28; Some 28] :> list (option Z).
Proof.
  assert (H : EvPlaceholder float32 [None; Some 28; Some 28] ∈
    trace (main module_globals no_inherited_defaults export_parse_args
             example_evaluate_results example_past_stop_threshold example_argv)).
  { apply list_elem_of_lookup. exists 3%nat. vm_compute. reflexivity. }
  split; [exact H |].
  exact (proj1 (proj2 (proj2 (proj2 (data_model_shapes 28)))) _ _ _ _ _ _ _ _ H).
Defined.

(** ** More on [create_model] *)

(** X1: for a documented data format [create_model] constructs eight
    layers for the nine entries of the model: the pooling layer is built
    once, before every other layer, and stands twice in the layer list; the
    sequential container is built last. *)
Theorem create_model_constructions (data_format : string) (image_size : Z) :
  data_format = "channels_first" ∨ data_format = "channels_last" →
  ∃ model,
    outcome (create_model (PStr data_format) image_size) = inr model ∧
    last (trace (create_model (PStr data_format) image_size)) =
      Some (EvNewSequential model) ∧
    head (constructed_layers (trace (create_model (PStr data_format) image_size))) =
      Some (MaxPooling2D (2, 2) (2, 2) "same" (PStr data_format)) ∧
    length (filter is_max_pool
              (constructed_layers
                 (trace (create_model (PStr data_format) image_size)))) = 1%nat ∧
    length (constructed_layers
              (trace (create_model (PStr data_format) image_size))) = 8%nat ∧
    length (filter is_max_pool (layers model)) = 2%nat ∧
    length (layers model) = 9%nat.
Proof.
  intros [-> | ->]; eexists; repeat split; reflexivity.
Qed.

(** ** More on [model_fn] *)

(** X2: missing keys.  Without [params["use_tpu"]] the call raises KeyError
    at line 102, whatever the mode; without [params["data_format"]] it raises
    KeyError at line 106 before any layer is built; a features dict without
    'image' raises KeyError at line 109 only after the whole model has been
    built. *)
Theorem model_fn_missing_keys (h : bool) (features : Features) (labels : Tensor)
    (mode : Mode) (params : gmap string PyVal) :
  (params !! "use_tpu" = None →
   model_fn h features labels mode params =
     ([], inl (mkExn KeyError "use_tpu" 102))) ∧
  (∀ use_tpu,
     params !! "use_tpu" = Some use_tpu →
     truthy use_tpu && bool_decide (mode = PREDICT) = false →
     params !! "data_format" = None →
     model_fn h features labels mode params =
       ([], inl (mkExn KeyError "data_format" 106))) ∧
  (∀ use_tpu data_format model d,
     params !! "use_tpu" = Some use_tpu →
     truthy use_tpu && bool_decide (mode = PREDICT) = false →
     params !! "data_format" = Some data_format →
     outcome (create_model data_format IMAGE_SIZE) = inr model →
     features = FDict d →
     d !! "image" = None →
     model_fn h features labels mode params =
       (trace (create_model data_format IMAGE_SIZE),
        inl (mkExn KeyError "image" 109))).
Proof.
  repeat split.
  - intros Hu. run_M. by rewrite Hu.
  - intros u Hu Hg Hd. run_M. by rewrite Hu, Hg, Hd.
  - intros u df model d Hu Hg Hd Hm -> Hi. revert Hm.
    run_M. rewrite Hu, Hg, Hd, Hi. simpl.
    split_cases; intros; simplify_eq; reflexivity.
Qed.

(** The assertion of [create_model] seen through [model_fn]. *)
Lemma model_fn_assertion (h : bool) (features : Features)
    (labels : Tensor) (mode : Mode) (params : gmap string PyVal)
    (use_tpu data_format : PyVal) :
  params !! "use_tpu" = Some use_tpu →
  truthy use_tpu && bool_decide (mode = PREDICT) = false →
  params !! "data_format" = Some data_format →
  data_format ≠ PStr "channels_first" →
  data_format ≠ PStr "channels_last" →
  model_fn h features labels mode params =
    ([], inl (mkExn AssertionError "" 59)).
Proof.
  intros Hu Hg Hd H1 H2.
  unfold model_fn, model_fn_entry, getitem. rewrite Hu, Hd. simpl.
  rewrite Hg. simpl. by rewrite (create_model_assert _ _ H1 H2).
Qed.

(** X3: a [params["data_format"]] that is neither 'channels_first' nor
    'channels_last' makes every call that passes the first guard fail with the
    AssertionError of [create_model], line 59, in every mode and before any
    layer is built. *)
Theorem model_fn_bad_data_format (h : bool) (features : Features)
    (labels : Tensor) (mode : Mode) (params : gmap string PyVal)
    (use_tpu data_format : PyVal) :
  params !! "use_tpu" = Some use_tpu →
  truthy use_tpu && bool_decide (mode = PREDICT) = false →
  params !! "data_format" = Some data_format →
  data_format ≠ PStr "channels_first" →
  data_format ≠ PStr "channels_last" →
  model_fn h features labels mode params =
    ([], inl (mkExn AssertionError "" 59)).
Proof. apply model_fn_assertion. Qed.

(** X4: [model_fn] returns [None] exactly when the mode is none of the
    three mode keys and the part before the branches (keys, model, image) has
    succeeded. *)
Theorem model_fn_none_iff_other_mode (h : bool) (features : Features)
    (labels : Tensor) (mode : Mode) (params : gmap string PyVal) :
  outcome (model_fn h features labels mode params) = inr None ↔
  mode = OTHER ∧ ∃ r, outcome (model_fn_entry features mode params) = inr r.
Proof.
  unfold model_fn.
  destruct (outcome (model_fn_entry features mode params))
    as [e | [[u m] i]] eqn:He.
  - rewrite (outcome_bind_inl _ _ _ He). split; [discriminate |].
    intros [_ [r [=]]].
  - rewrite (outcome_bind_inr _ _ _ He). simpl.
    pose proof (entry_returns _ _ _ _ _ _ He) as [_ Hg].
    split.
    + intros H. split; [| eauto].
      revert H. unfold model_fn_branches, outcome, raise, mbind, M_bind, mret, M_ret.
      destruct mode; simpl in *; destruct (truthy u); simpl;
        first [discriminate | reflexivity].
    + intros [-> _]. reflexivity.
Qed.

Lemma model_fn_returns (h : bool) (features : Features) (labels : Tensor)
    (mode : Mode) (params : gmap string PyVal) (r : option Spec) :
  outcome (model_fn h features labels mode params) = inr r →
  ∃ use_tpu data_format model image,
    params !! "use_tpu" = Some use_tpu ∧
    params !! "data_format" = Some data_format ∧
    truthy use_tpu && bool_decide (mode = PREDICT) = false ∧
    outcome (create_model data_format IMAGE_SIZE) = inr model ∧
    image_of features = Some image ∧
    outcome (model_fn_branches h use_tpu model image labels mode) = inr r.
Proof.
  unfold model_fn. intros H.
  destruct (outcome (model_fn_entry features mode params))
    as [e | [[u m] i]] eqn:He.
  - rewrite (outcome_bind_inl _ _ _ He) in H. discriminate.
  - rewrite (outcome_bind_inr _ _ _ He) in H. simpl in H.
    pose proof (entry_returns _ _ _ _ _ _ He) as [Hu Hg].
    revert He. unfold model_fn_entry, getitem. rewrite Hu. simpl. rewrite Hg. simpl.
    destruct (params !! "data_format") as [df |] eqn:Hd; [| discriminate].
    simpl. intros He. exists u, df, m, i.
    split; [done |]. split; [done |]. split; [done |].
    destruct (create_model df IMAGE_SIZE) as [t [e | m']] eqn:Hc;
      [discriminate |].
    revert He. unfold outcome, mbind, M_bind, mret, M_ret, raise. simpl.
    destruct features as [x | d]; simpl.
    + intros [= -> ->]. by repeat split.
    + destruct (d !! "image"); simpl; [| discriminate].
      intros [= -> ->]. by repeat split.
Qed.

(** X5: what a returned spec holds.  Its mode is the mode of the call;
    predictions and export outputs are set exactly in PREDICT, the loss
    exactly outside PREDICT, the train op exactly in TRAIN; in EVAL the metric
    ops are set without TPU and the metric function with TPU, never both; the
    spec is a TPUEstimatorSpec exactly when [use_tpu] is true. *)
Theorem model_fn_spec_by_mode (h : bool) (features : Features) (labels : Tensor)
    (mode : Mode) (params : gmap string PyVal) (spec : Spec) :
  outcome (model_fn h features labels mode params) = inr (Some spec) →
  ∃ use_tpu,
    params !! "use_tpu" = Some use_tpu ∧
    spec_mode spec = mode ∧
    (is_Some (spec_predictions spec) ↔ mode = PREDICT) ∧
    (is_Some (spec_export_outputs spec) ↔ mode = PREDICT) ∧
    (is_Some (spec_loss spec) ↔ mode ≠ PREDICT) ∧
    (is_Some (spec_train_op spec) ↔ mode = TRAIN) ∧
    (is_Some (spec_eval_metric_ops spec) ↔ mode = EVAL ∧ truthy use_tpu = false) ∧
    (is_Some (spec_eval_metrics spec) ↔ mode = EVAL ∧ truthy use_tpu = true) ∧
    (spec_class spec = TPUEstimatorSpec ↔ truthy use_tpu = true).
Proof.
  intros H.
  apply model_fn_returns in H as (u & df & m & i & Hu & _ & Hg & _ & _ & Hb).
  exists u. split; [exact Hu |].
  revert Hb. unfold model_fn_branches, outcome, raise, mbind, M_bind, mret, M_ret.
  destruct mode; simpl in *; destruct (truthy u); simpl; try discriminate;
    intros [= <-]; simpl;
    repeat split;
    try (intros [? [=]]); try (intros [[=] ?]); try (intros [? [=]]);
    try discriminate; try done; eauto.
Qed.

(** X6: when the inputs hold no model application of their own, every
    tensor of the returned spec applies one and the same model, the one
    [create_model] builds for [params["data_format"]] at the default image
    size, and applies it with [training=True] exactly in TRAIN mode; at least
    one tensor of the spec does apply it. *)
Theorem model_fn_applies_built_model (h : bool) (features : Features)
    (image labels : Tensor) (mode : Mode) (params : gmap string PyVal)
    (spec : Spec) :
  outcome (model_fn h features labels mode params) = inr (Some spec) →
  image_of features = Some image →
  applications image = [] →
  applications labels = [] →
  ∃ data_format model,
    params !! "data_format" = Some data_format ∧
    outcome (create_model data_format IMAGE_SIZE) = inr model ∧
    (∃ t, t ∈ spec_tensors spec ∧ applications t ≠ []) ∧
    (∀ t a, t ∈ spec_tensors spec → a ∈ applications t →
            a = (model, bool_decide (mode = TRAIN))).
Proof.
  intros H Hi Ha Hl.
  apply model_fn_returns in H as (u & df & m & i & _ & Hd & Hg & Hm & Hi' & Hb).
  rewrite Hi in Hi'. injection Hi' as <-.
  exists df, m. split; [exact Hd |]. split; [exact Hm |].
  revert Hb. unfold model_fn_branches, outcome, raise, mbind, M_bind, mret, M_ret.
  destruct mode; simpl in *; destruct (truthy u); simpl; try discriminate;
    intros [= <-]; destruct h;
    match goal with
    | |- context [spec_tensors ?s] =>
        let l := eval vm_compute in (spec_tensors s) in
        change (spec_tensors s) with l
    end;
    (split;
     [ eexists; split;
       [ apply list_elem_of_lookup; exists 0%nat; reflexivity
       | simpl; rewrite ?Hl, ?Ha; discriminate ]
     | intros t a Ht Hin;
       repeat (apply elem_of_cons in Ht as [-> | Ht]);
       try (by apply elem_of_nil in Ht);
       simpl in Hin; rewrite ?Hl, ?Ha in Hin; simpl in Hin;
       repeat (apply elem_of_cons in Hin as [-> | Hin]; [reflexivity |]);
       by apply elem_of_nil in Hin ]).
Qed.

Lemma create_model_constructions_witness :
  ∃ model,
    outcome (create_model (PStr "channels_first") 28) = inr model ∧
    length (constructed_layers
              (trace (create_model (PStr "channels_first") 28))) = 8%nat ∧
    length (layers model) = 9%nat.
Proof.
  destruct (create_model_constructions "channels_first" 28)
    as (model & Ho & _ & _ & _ & Hc & _ & Hl).
  - left. reflexivity.
  - exists model. repeat split; assumption.
Defined.

Lemma model_fn_missing_keys_witness :
  (∅ : gmap string PyVal) !! "use_tpu" = None ∧
  model_fn false (FTensor (TInput "image")) (TInput "labels") TRAIN ∅ =
    ([], inl (mkExn KeyError "use_tpu" 102)).
Proof.
  split; [reflexivity |].
  apply (proj1 (model_fn_missing_keys false (FTensor (TInput "image"))
                  (TInput "labels") TRAIN ∅)).
  reflexivity.
Defined.

Lemma model_fn_bad_data_format_witness :
  model_fn false (FTensor (TInput "image")) (TInput "labels") EVAL
    bad_format_params =
  ([], inl (mkExn AssertionError "" 59)).
Proof.
  apply (model_fn_bad_data_format false (FTensor (TInput "image"))
           (TInput "labels") EVAL bad_format_params (PBool false) (PStr "NCHW"));
    first [reflexivity | discriminate].
Defined.

Lemma model_fn_none_iff_other_mode_witness :
  outcome (model_fn false (FTensor (TInput "image")) (TInput "labels") OTHER
             cpu_params) = inr None.
Proof.
  apply (proj2 (model_fn_none_iff_other_mode false (FTensor (TInput "image"))
                  (TInput "labels") OTHER cpu_params)).
  split; [reflexivity |]. eexists. reflexivity.
Defined.

Lemma model_fn_spec_by_mode_witness :
  ∃ spec,
    outcome (model_fn false (FTensor (TInput "image")) (TInput "labels") TRAIN
               cpu_params) = inr (Some spec) ∧
    spec_mode spec = TRAIN ∧
    is_Some (spec_train_op spec).
Proof.
  eexists. split; [reflexivity |].
  edestruct (model_fn_spec_by_mode false (FTensor (TInput "image"))
               (TInput "labels") TRAIN cpu_params)
    as (u & _ & Hm & _ & _ & _ & Ht & _); [reflexivity |].
  split; [exact Hm |]. apply Ht. reflexivity.
Defined.

Lemma model_fn_applies_built_model_witness :
  ∃ spec model,
    outcome (model_fn false (FTensor (TInput "image")) (TInput "labels") EVAL
               cpu_params) = inr (Some spec) ∧
    outcome (create_model (PStr "channels_last") IMAGE_SIZE) = inr model ∧
    ∀ t a, t ∈ spec_tensors spec → a ∈ applications t → a = (model, false).
Proof.
  eexists.
  edestruct (model_fn_applies_built_model false (FTensor (TInput "image"))
               (TInput "image") (TInput "labels") EVAL cpu_params)
    as (df & model & Hd & Hm & _ & Hall);
    [reflexivity | reflexivity | reflexivity | reflexivity |].
  exists model. split; [reflexivity |].
  injection Hd as <-. split; [exact Hm |]. exact Hall.
Defined.

(** ** More on [construct_estimator] *)

(** X7: a negative [flags.num_gpus] is not rejected.  Without TPU it falls
    into the last branch and selects the mirrored strategy over that negative
    number of GPUs, while the default data format is the CPU one,
    'channels_last'. *)
Theorem construct_estimator_negative_gpus (fl : flags.t) :
  flags.num_gpus fl < 0 →
  flags.data_format fl = None →
  outcome (construct_estimator fl false) =
  inr (Estimator fn_model_fn
         (EstimatorRunConfig (flags.model_dir fl)
            (MirroredStrategy (flags.num_gpus fl)) (session_config_of fl))
         {[ "use_tpu" := PBool false; "data_format" := PStr "channels_last" ]}).
Proof.
  intros Hn Hd. unfold construct_estimator. rewrite Hd.
  destruct (Z.ltb_spec 0 (flags.num_gpus fl)) as [? | _]; [lia |].
  destruct (Z.eqb_spec (flags.num_gpus fl) 0) as [? | _]; [lia |].
  destruct (Z.eqb_spec (flags.num_gpus fl) 1) as [? | _]; [lia |].
  reflexivity.
Qed.

Lemma construct_estimator_negative_gpus_witness :
  outcome (construct_estimator negative_gpus_flags false) =
  inr (Estimator fn_model_fn
         (EstimatorRunConfig "/tmp/mnist_model" (MirroredStrategy (-1))
            (session_config_of negative_gpus_flags))
         {[ "use_tpu" := PBool false; "data_format" := PStr "channels_last" ]}).
Proof.
  apply (construct_estimator_negative_gpus negative_gpus_flags); reflexivity.
Defined.

(** X8: with TPU the number of GPUs plays no part: the estimator, its
    params and the call that builds it are the same for every
    [flags.num_gpus]. *)
Theorem construct_estimator_tpu_ignores_gpus (fl : flags.t) (n : Z) :
  construct_estimator (with_num_gpus n fl) true = construct_estimator fl true.
Proof. unfold construct_estimator. simpl. by rewrite !orb_true_r. Qed.

(** X9: the params [construct_estimator] builds are accepted by [model_fn]
    whenever [flags.data_format] is absent or one of the two documented
    formats: outside TPU prediction, every call on a plain image tensor
    returns, and returns a spec unless the mode is none of the mode keys. *)
Theorem estimator_params_accepted (fl : flags.t) (use_tpu : bool)
    (est : EstimatorObj) (h : bool) (image labels : Tensor) (mode : Mode) :
  outcome (construct_estimator fl use_tpu) = inr est →
  flags.data_format fl = None ∨
  flags.data_format fl = Some "channels_first" ∨
  flags.data_format fl = Some "channels_last" →
  use_tpu = false ∨ mode ≠ PREDICT →
  ∃ r, outcome (model_fn h (FTensor image) labels mode (estimator_params est))
       = inr r ∧
       (r = None ↔ mode = OTHER).
Proof.
  intros Hest Hd Hg.
  assert (Hp : ∃ df, (df = "channels_first" ∨ df = "channels_last") ∧
                     estimator_params est =
                     {[ "use_tpu" := PBool use_tpu; "data_format" := PStr df ]}).
  { revert Hest. unfold construct_estimator.
    destruct Hd as [-> | [-> | ->]];
      destruct (0 <? flags.num_gpus fl), use_tpu; simpl; intros [= <-];
      eexists; (split; [| reflexivity]); auto. }
  destruct Hp as (df & Hdf & ->).
  assert (Hgb : use_tpu && bool_decide (mode = PREDICT) = false).
  { destruct Hg as [-> | Hm]; [reflexivity |].
    rewrite (bool_decide_eq_false_2 _ Hm). apply andb_false_r. }
  unfold model_fn, model_fn_entry, getitem.
  rewrite lookup_insert_eq. simpl. rewrite Hgb. simpl.
  rewrite lookup_insert_ne by discriminate.
  rewrite lookup_singleton_eq. simpl.
  destruct Hdf as [-> | ->]; destruct mode; destruct use_tpu;
    try (destruct Hg as [Hg | Hg]; [discriminate Hg | by destruct Hg]);
    eexists; (split; [reflexivity |]); split; discriminate || reflexivity.
Qed.

Lemma estimator_params_shape (fl : flags.t) (use_tpu : bool) (est : EstimatorObj) :
  outcome (construct_estimator fl use_tpu) = inr est →
  ∃ df, estimator_params est =
          {[ "use_tpu" := PBool use_tpu; "data_format" := PStr df ]} ∧
        (∀ d, flags.data_format fl = Some d → df = d).
Proof.
  unfold construct_estimator.
  destruct use_tpu; simpl; intros [= <-]; eexists; (split; [reflexivity |]);
    intros d Hd; by rewrite Hd.
Qed.

Lemma estimator_params_accepted_witness :
  ∃ est r,
    outcome (construct_estimator example_flags false) = inr est ∧
    outcome (model_fn false (FTensor (TInput "image")) (TInput "labels") PREDICT
               (estimator_params est)) = inr r.
Proof.
  assert (Hc : ∃ est, outcome (construct_estimator example_flags false) = inr est)
    by (eexists; reflexivity).
  destruct Hc as [est Hc]. exists est.
  destruct (estimator_params_accepted example_flags false est false
              (TInput "image") (TInput "labels") PREDICT Hc)
    as (r & Hr & _); [left; reflexivity | left; reflexivity |].
  exists r. split; [exact Hc | exact Hr].
Defined.

(** X10: [construct_estimator] does not check [flags.data_format].  A value
    other than the two documented formats goes into the params unchanged and
    surfaces only when [model_fn] runs: outside TPU prediction every call
    fails with the AssertionError of line 59. *)
Theorem estimator_params_bad_format (fl : flags.t) (use_tpu : bool)
    (est : EstimatorObj) (d : string) (h : bool) (features : Features)
    (labels : Tensor) (mode : Mode) :
  outcome (construct_estimator fl use_tpu) = inr est →
  flags.data_format fl = Some d →
  d ≠ "channels_first" →
  d ≠ "channels_last" →
  use_tpu = false ∨ mode ≠ PREDICT →
  estimator_params est !! "data_format" = Some (PStr d) ∧
  model_fn h features labels mode (estimator_params est) =
    ([], inl (mkExn AssertionError "" 59)).
Proof.
  intros Hest Hd H1 H2 Hg.
  destruct (estimator_params_shape _ _ _ Hest) as (df & Hp & Hdf).
  rewrite (Hdf d Hd) in Hp. rewrite Hp.
  split; [reflexivity |].
  apply (model_fn_assertion _ _ _ _ _ (PBool use_tpu) (PStr d)).
  - reflexivity.
  - destruct Hg as [-> | Hm]; [reflexivity |].
    rewrite (bool_decide_eq_false_2 _ Hm). apply andb_false_r.
  - reflexivity.
  - congruence.
  - congruence.
Qed.

Lemma estimator_params_bad_format_witness :
  ∃ est,
    outcome (construct_estimator bad_format_flags false) = inr est ∧
    model_fn false (FTensor (TInput "image")) (TInput "labels") TRAIN
      (estimator_params est) =
    ([], inl (mkExn AssertionError "" 59)).
Proof.
  assert (Hc : ∃ est, outcome (construct_estimator bad_format_flags false) = inr est)
    by (eexists; reflexivity).
  destruct Hc as [est Hc]. exists est. split; [exact Hc |].
  apply (estimator_params_bad_format bad_format_flags false est "NCHW" false
           (FTensor (TInput "image")) (TInput "labels") TRAIN Hc);
    first [reflexivity | discriminate | left; reflexivity].
Defined.

(** X11: an estimator built for TPU cannot predict, and only such an
    estimator hits the guard: on the params of the estimator, a PREDICT call
    of [model_fn] raises the RuntimeError of line 104, before any layer is
    built, exactly when the estimator was constructed with [use_tpu]. *)
Theorem tpu_estimator_cannot_predict (fl : flags.t) (use_tpu : bool)
    (est : EstimatorObj) (h : bool) (features : Features) (labels : Tensor) :
  outcome (construct_estimator fl use_tpu) = inr est →
  (model_fn h features labels PREDICT (estimator_params est) =
     ([], inl (mkExn RuntimeError guard_msg 104))
   ↔ use_tpu = true).
Proof.
  intros Hest.
  destruct (estimator_params_shape _ _ _ Hest) as (df & -> & _).
  split.
  - intros H. destruct use_tpu; [reflexivity |].
    assert (Ho : outcome (model_fn h features labels PREDICT
                   {[ "use_tpu" := PBool false; "data_format" := PStr df ]}) =
                 inl (mkExn RuntimeError guard_msg 104)) by (by rewrite H).
    apply model_fn_exn, entry_runtime_error in Ho as [_ [(v & Hv & Ht) _]];
      [| reflexivity].
    rewrite lookup_insert_eq in Hv. injection Hv as <-. discriminate Ht.
  - intros ->. unfold model_fn.
    rewrite entry_guard_raises; [reflexivity |].
    split; [| reflexivity]. exists (PBool true).
    split; [apply lookup_insert_eq | reflexivity].
Qed.

Lemma tpu_estimator_cannot_predict_witness :
  ∃ est,
    outcome (construct_estimator example_flags true) = inr est ∧
    model_fn false (FTensor (TInput "image")) (TInput "labels") PREDICT
      (estimator_params est) =
    ([], inl (mkExn RuntimeError guard_msg 104)).
Proof.
  assert (Hc : ∃ est, outcome (construct_estimator example_flags true) = inr est)
    by (eexists; reflexivity).
  destruct Hc as [est Hc]. exists est. split; [exact Hc |].
  apply (proj2 (tpu_estimator_cannot_predict example_flags true est false
                  (FTensor (TInput "image")) (TInput "labels") Hc)).
  reflexivity.
Defined.

(** ** More on [main] *)

Section MainCases.

Variable globals : gset string.
Variable inherited_defaults : list ParentParser → gmap string PyVal.
Variable parse_args : Parser → list string → flags.t.
Variable evaluate_results : nat → gmap string Q.
Variable past_stop_threshold : option Q → Q → bool.

Local Abbreviation loop :=
  (train_eval_loop globals evaluate_results past_stop_threshold).
Local Abbreviation run :=
  (main globals inherited_defaults parse_args evaluate_results
     past_stop_threshold).
Local Abbreviation parser := (MNISTArgParser inherited_defaults true).

(** The loop runs [k] whole iterations and then ends, or fails inside the
    next one, for the reason given. *)
Lemma loop_cases (fl : flags.t) (n i : nat) :
  ∃ k, (k ≤ n)%nat ∧
    (loop fl n i = (iterations k, inr tt) ∨
     (k < n)%nat ∧
     (("train_input_fn" ∉ globals) ∧
      loop fl n i = (iterations k, inl train_input_fn_error) ∨
      ("eval_input_fn" ∉ globals) ∧
      loop fl n i =
        (iterations k ++ [EvTrain "train_input_fn"], inl eval_input_fn_error) ∨
      evaluate_results (i + k)%nat !! "accuracy" = None ∧
      loop fl n i = (iterations k ++ iteration_calls, inl accuracy_error))).
Proof.
  revert i. induction n as [| n IH]; intros i.
  - exists 0%nat. split; [lia |]. left. reflexivity.
  - simpl. unfold load_global, getitem.
    destruct (decide ("train_input_fn" ∈ globals)) as [Ht | Ht].
    2:{ rewrite (bool_decide_eq_false_2 _ Ht). exists 0%nat. split; [lia |].
        right. split; [lia |]. left. split; [exact Ht | reflexivity]. }
    rewrite (bool_decide_eq_true_2 _ Ht). simpl.
    destruct (decide ("eval_input_fn" ∈ globals)) as [He | He].
    2:{ rewrite (bool_decide_eq_false_2 _ He). exists 0%nat. split; [lia |].
        right. split; [lia |]. right. left. split; [exact He | reflexivity]. }
    rewrite (bool_decide_eq_true_2 _ He). simpl.
    destruct (evaluate_results i !! "accuracy") as [acc |] eqn:Ha; simpl.
    2:{ exists 0%nat. split; [lia |]. right. split; [lia |]. right. right.
        rewrite Nat.add_0_r. split; [exact Ha | reflexivity]. }
    destruct (past_stop_threshold (flags.stop_threshold fl) acc); simpl.
    + exists 1%nat. split; [lia |]. left. reflexivity.
    + destruct (IH (S i)) as (k & Hk & Hc). exists (S k). split; [lia |].
      replace (i + S k)%nat with (S i + k)%nat by lia.
      destruct Hc as [-> | [Hlt [[Hc ->] | [[Hc ->] | [Hc ->]]]]].
      * left. reflexivity.
      * right. split; [lia |]. left. split; [exact Hc | reflexivity].
      * right. split; [lia |]. right. left. split; [exact Hc | reflexivity].
      * right. split; [lia |]. right. right. split; [exact Hc | reflexivity].
Qed.

(** Every run of [main]: the startup calls, then a division by zero, or
    [k] whole iterations followed by the export or by a failure inside the
    next iteration. *)
Lemma main_cases (argv : list string) :
  let fl := parse_args parser (tail argv) in
  let n := Z.to_nat (flags.train_epochs fl / flags.epochs_between_evals fl) in
  ∃ est k,
    construct_estimator fl (bool_decide (flags.tpu fl ≠ None)) =
      ([EvNewEstimator est], inr est) ∧
    (k ≤ n)%nat ∧
    (flags.epochs_between_evals fl = 0 ∧
     run argv = (startup_calls parser argv est fl, inl zero_division) ∨
     flags.epochs_between_evals fl ≠ 0 ∧
     (run argv =
        (startup_calls parser argv est fl ++ iterations k
           ++ trace (export_model fl), inr tt) ∨
      (k < n)%nat ∧
      (("train_input_fn" ∉ globals) ∧
       run argv = (startup_calls parser argv est fl ++ iterations k,
                   inl train_input_fn_error) ∨
       ("eval_input_fn" ∉ globals) ∧
       run argv = (startup_calls parser argv est fl ++ iterations k
                     ++ [EvTrain "train_input_fn"],
                   inl eval_input_fn_error) ∨
       evaluate_results k !! "accuracy" = None ∧
       run argv = (startup_calls parser argv est fl ++ iterations k
                     ++ iteration_calls,
                   inl accuracy_error)))).
Proof.
  intros fl n.
  destruct (main_prefix globals inherited_defaults parse_args evaluate_results
              past_stop_threshold argv) as (est & Hest & Hrun).
  fold fl in Hest, Hrun. exists est.
  unfold floordiv in Hrun.
  destruct (Z.eqb_spec (flags.epochs_between_evals fl) 0) as [Hz | Hz].
  - exists 0%nat. split; [exact Hest |]. split; [lia |]. left.
    split; [exact Hz |]. rewrite Hrun. reflexivity.
  - destruct (loop_cases fl n 0) as (k & Hk & Hc). exists k.
    split; [exact Hest |]. split; [exact Hk |]. right. split; [exact Hz |].
    pose proof (export_model_returns fl) as Hx.
    destruct (export_model fl) as [tx rx]. simpl in Hx. subst rx.
    revert Hrun. unfold mbind, M_bind, mret, M_ret, trace, outcome. simpl.
    fold n.
    destruct Hc as [-> | [Hlt [[Hc ->] | [[Hc ->] | [Hc ->]]]]]; simpl; intros ->.
    + left. reflexivity.
    + right. split; [exact Hlt |]. left. split; [exact Hc | reflexivity].
    + right. split; [exact Hlt |]. right. left. split; [exact Hc | reflexivity].
    + right. split; [exact Hlt |]. right. right. split; [exact Hc | reflexivity].
Qed.

End MainCases.

(** X12: the ways [main] can end.  A run ends normally or with one of four
    exceptions of its own statements: the division by zero of line 233,
    exactly when [flags.epochs_between_evals] is 0; the NameError of line 234
    or 235, only when the input function of that line is unbound; the
    KeyError of line 239, only when an evaluation result has no 'accuracy'. *)
Theorem main_failure_modes (globals : gset string)
    (inherited_defaults : list ParentParser → gmap string PyVal)
    (parse_args : Parser → list string → flags.t)
    (evaluate_results : nat → gmap string Q)
    (past_stop_threshold : option Q → Q → bool) (argv : list string) :
  let fl := parse_args (MNISTArgParser inherited_defaults true) (tail argv) in
  let result := outcome (main globals inherited_defaults parse_args
                           evaluate_results past_stop_threshold argv) in
  result ∈ [inr tt; inl zero_division; inl train_input_fn_error;
            inl eval_input_fn_error; inl accuracy_error] ∧
  (result = inl zero_division ↔ flags.epochs_between_evals fl = 0) ∧
  (result = inl train_input_fn_error → "train_input_fn" ∉ globals) ∧
  (result = inl eval_input_fn_error → "eval_input_fn" ∉ globals) ∧
  (result = inl accuracy_error →
   ∃ j, evaluate_results j !! "accuracy" = None).
Proof.
  intros fl result. subst result.
  destruct (main_cases globals inherited_defaults parse_args evaluate_results
              past_stop_threshold argv) as (est & k & _ & _ & Hc).
  fold fl in Hc.
  destruct Hc as [[Hz ->] | [Hz [-> | [_ [[Hc ->] | [[Hc ->] | [Hc ->]]]]]]];
    simpl; (split; [set_solver |]); (split; [split; [intros [=] | intros ?]; done |]);
    repeat split; intros [=]; eauto.
Qed.

Lemma export_model_calls (fl : flags.t) :
  export_model fl = (export_calls (flags.export_dir fl), inr tt).
Proof. unfold export_model, export_calls. by destruct (flags.export_dir fl). Qed.

(** [main] once the division has succeeded: the startup calls, the loop,
    and the export if the loop has ended normally. *)
Lemma main_after_loop (globals : gset string)
    (inherited_defaults : list ParentParser → gmap string PyVal)
    (parse_args : Parser → list string → flags.t)
    (evaluate_results : nat → gmap string Q)
    (past_stop_threshold : option Q → Q → bool) (argv : list string) :
  let parser := MNISTArgParser inherited_defaults true in
  let fl := parse_args parser (tail argv) in
  let looped :=
    train_eval_loop globals evaluate_results past_stop_threshold fl
      (Z.to_nat (flags.train_epochs fl / flags.epochs_between_evals fl)) 0 in
  flags.epochs_between_evals fl ≠ 0 →
  ∃ est,
    main globals inherited_defaults parse_args evaluate_results
      past_stop_threshold argv =
    match outcome looped with
    | inr _ => (startup_calls parser argv est fl ++ trace looped
                  ++ export_calls (flags.export_dir fl), inr tt)
    | inl e => (startup_calls parser argv est fl ++ trace looped, inl e)
    end.
Proof.
  intros parser fl looped Hz.
  destruct (main_prefix globals inherited_defaults parse_args evaluate_results
              past_stop_threshold argv) as (est & _ & Hrun).
  fold parser fl in Hrun. exists est. rewrite Hrun.
  unfold floordiv. apply Z.eqb_neq in Hz. rewrite Hz.
  rewrite export_model_calls.
  unfold mbind, M_bind, mret, M_ret, trace, outcome. simpl. fold looped.
  by destruct looped as [t [e | []]].
Qed.

(** X13: with [flags.epochs_between_evals] 0 the run parses the flags,
    constructs the estimator and fetches the train hooks, and only then
    fails with the ZeroDivisionError of line 233: nothing is trained,
    evaluated or exported. *)
Theorem main_zero_epochs_between_evals (globals : gset string)
    (inherited_defaults : list ParentParser → gmap string PyVal)
    (parse_args : Parser → list string → flags.t)
    (evaluate_results : nat → gmap string Q)
    (past_stop_threshold : option Q → Q → bool) (argv : list string) :
  let parser := MNISTArgParser inherited_defaults true in
  let fl := parse_args parser (tail argv) in
  flags.epochs_between_evals fl = 0 →
  ∃ est,
    main globals inherited_defaults parse_args evaluate_results
      past_stop_threshold argv =
    (startup_calls parser argv est fl, inl zero_division).
Proof.
  intros parser fl Hz.
  destruct (main_prefix globals inherited_defaults parse_args evaluate_results
              past_stop_threshold argv) as (est & _ & Hrun).
  fold parser fl in Hrun. exists est. rewrite Hrun.
  unfold floordiv. rewrite Hz. reflexivity.
Qed.

(** X14: fewer epochs than the evaluation interval means no training at
    all.  With [0 < epochs_between_evals] and [train_epochs <
    epochs_between_evals] the loop body never runs, in any namespace: the run
    ends normally right after the startup calls and the export, so an
    untrained model is exported when [flags.export_dir] is given. *)
Theorem main_no_training (globals : gset string)
    (inherited_defaults : list ParentParser → gmap string PyVal)
    (parse_args : Parser → list string → flags.t)
    (evaluate_results : nat → gmap string Q)
    (past_stop_threshold : option Q → Q → bool) (argv : list string) :
  let parser := MNISTArgParser inherited_defaults true in
  let fl := parse_args parser (tail argv) in
  0 < flags.epochs_between_evals fl →
  flags.train_epochs fl < flags.epochs_between_evals fl →
  ∃ est,
    main globals inherited_defaults parse_args evaluate_results
      past_stop_threshold argv =
    (startup_calls parser argv est fl ++ export_calls (flags.export_dir fl),
     inr tt).
Proof.
  intros parser fl Hpos Hlt.
  destruct (main_after_loop globals inherited_defaults parse_args
              evaluate_results past_stop_threshold argv) as (est & Hrun);
    [fold parser fl; lia |].
  fold parser fl in Hrun. exists est. rewrite Hrun.
  assert (Hn : Z.to_nat (flags.train_epochs fl / flags.epochs_between_evals fl)
               = 0%nat).
  { assert (flags.train_epochs fl / flags.epochs_between_evals fl < 1)
      by (apply Z.div_lt_upper_bound; lia).
    lia. }
  rewrite Hn. reflexivity.
Qed.

Lemma iterations_calls (k : nat) (e : Event) :
  e ∈ iterations k → e ∈ iteration_calls.
Proof.
  induction k as [| k IH]; cbn [iterations].
  - intros H. by apply elem_of_nil in H.
  - intros H. apply elem_of_app in H as [H | H]; auto.
Qed.

Lemma evaluate_follows_train_nil : evaluate_follows_train [].
Proof. intros p f H. by rewrite lookup_nil in H. Qed.

Lemma evaluate_follows_train_cons (e : Event) (t : list Event) :
  is_evaluate e = false →
  evaluate_follows_train t →
  evaluate_follows_train (e :: t).
Proof.
  intros He Ht [| p] f H; simpl in H.
  - injection H as ->. discriminate He.
  - destruct (Ht p f H) as (Hf & q & -> & Hq).
    split; [exact Hf |]. exists (S q). split; [reflexivity | exact Hq].
Qed.

Lemma evaluate_follows_train_iteration (t : list Event) :
  evaluate_follows_train t →
  evaluate_follows_train (iteration_calls ++ t).
Proof.
  intros Ht [| [| p]] f H; simpl in H.
  - discriminate H.
  - injection H as <-. split; [reflexivity |]. exists 0%nat. split; reflexivity.
  - destruct (evaluate_follows_train_cons EvPrint t eq_refl Ht p f H)
      as (Hf & q & -> & Hq).
    split; [exact Hf |]. exists (S (S q)). split; [reflexivity | exact Hq].
Qed.

Lemma evaluate_follows_train_iterations (k : nat) (t : list Event) :
  evaluate_follows_train t →
  evaluate_follows_train (iterations k ++ t).
Proof.
  intros Ht. induction k as [| k IH]; cbn [iterations]; [exact Ht |].
  rewrite <- app_assoc. by apply evaluate_follows_train_iteration.
Qed.

Lemma evaluate_follows_train_export (export_dir : option string) :
  evaluate_follows_train (export_calls export_dir).
Proof.
  destruct export_dir; simpl;
    repeat (apply evaluate_follows_train_cons; [reflexivity |]);
    apply evaluate_follows_train_nil.
Qed.

(** X15: in every run of [main], whatever the namespace and the flags,
    each evaluate call stands right after a train call, and the two are made
    with [eval_input_fn] and [train_input_fn]. *)
Theorem main_evaluate_follows_train (globals : gset string)
    (inherited_defaults : list ParentParser → gmap string PyVal)
    (parse_args : Parser → list string → flags.t)
    (evaluate_results : nat → gmap string Q)
    (past_stop_threshold : option Q → Q → bool) (argv : list string) :
  evaluate_follows_train
    (trace (main globals inherited_defaults parse_args evaluate_results
              past_stop_threshold argv)).
Proof.
  destruct (main_cases globals inherited_defaults parse_args evaluate_results
              past_stop_threshold argv) as (est & k & _ & _ & Hc).
  assert (Hs : ∀ t, evaluate_follows_train t →
                    evaluate_follows_train
                      (startup_calls (MNISTArgParser inherited_defaults true) argv
                         est (parse_args (MNISTArgParser inherited_defaults true)
                                (tail argv)) ++ t)).
  { intros t Ht. unfold startup_calls. simpl.
    by repeat (apply evaluate_follows_train_cons; [reflexivity |]). }
  destruct Hc as [[_ ->] | [_ [-> | [_ [[_ ->] | [[_ ->] | [_ ->]]]]]]]; simpl trace.
  - rewrite <- (app_nil_r (startup_calls _ _ _ _)).
    apply Hs, evaluate_follows_train_nil.
  - apply Hs, evaluate_follows_train_iterations.
    rewrite export_model_calls. apply evaluate_follows_train_export.
  - rewrite <- (app_nil_r (iterations k)).
    apply Hs, evaluate_follows_train_iterations, evaluate_follows_train_nil.
  - apply Hs, evaluate_follows_train_iterations.
    apply evaluate_follows_train_cons; [reflexivity |].
    apply evaluate_follows_train_nil.
  - apply Hs, evaluate_follows_train_iterations.
    rewrite <- (app_nil_r iteration_calls).
    apply evaluate_follows_train_iteration, evaluate_follows_train_nil.
Qed.

(** X16: the export.  A run of [main] calls [export_savedmodel] only with
    [flags.export_dir], only when it ends normally, and then as its very last
    call; and every run that ends normally with a [flags.export_dir] does
    export. *)
Theorem main_export_last (globals : gset string)
    (inherited_defaults : list ParentParser → gmap string PyVal)
    (parse_args : Parser → list string → flags.t)
    (evaluate_results : nat → gmap string Q)
    (past_stop_threshold : option Q → Q → bool) (argv : list string) :
  let fl := parse_args (MNISTArgParser inherited_defaults true) (tail argv) in
  let run := main globals inherited_defaults parse_args evaluate_results
               past_stop_threshold argv in
  (∀ d, EvExportSavedModel d ∈ trace run →
        flags.export_dir fl = Some d ∧ outcome run = inr tt ∧
        last (trace run) = Some (EvExportSavedModel d)) ∧
  (∀ d, outcome run = inr tt → flags.export_dir fl = Some d →
        last (trace run) = Some (EvExportSavedModel d)).
Proof.
  intros fl run. subst run.
  destruct (main_cases globals inherited_defaults parse_args evaluate_results
              past_stop_threshold argv) as (est & k & _ & _ & Hc).
  fold fl in Hc.
  assert (Hno : ∀ d t, EvExportSavedModel d ∈
                  startup_calls (MNISTArgParser inherited_defaults true) argv est fl
                    ++ iterations k ++ t →
                  EvExportSavedModel d ∈ t).
  { intros d t H. apply elem_of_app in H as [H | H].
    - unfold startup_calls in H.
      repeat (apply elem_of_cons in H as [H | H]; [discriminate |]).
      by apply elem_of_nil in H.
    - apply elem_of_app in H as [H | H]; [| exact H].
      apply iterations_calls in H. unfold iteration_calls in H.
      repeat (apply elem_of_cons in H as [H | H]; [discriminate |]).
      by apply elem_of_nil in H. }
  destruct Hc as [[_ ->] | [_ [-> | [_ [[_ ->] | [[_ ->] | [_ ->]]]]]]];
    simpl trace; simpl outcome.
  - split; [| intros d [=]]. intros d H. exfalso.
    unfold startup_calls in H.
    repeat (apply elem_of_cons in H as [H | H]; [discriminate |]).
    by apply elem_of_nil in H.
  - rewrite export_model_calls. simpl trace.
    destruct (flags.export_dir fl) as [d' |] eqn:Hd.
    + assert (Hlast :
        last (startup_calls (MNISTArgParser inherited_defaults true) argv
                est fl ++ iterations k ++ export_calls (Some d')) =
        Some (EvExportSavedModel d'))
        by (rewrite !last_app; reflexivity).
      split.
      * intros d H. apply Hno in H. simpl in H.
        repeat (apply elem_of_cons in H as [H | H]; [try discriminate |]);
          [| by apply elem_of_nil in H].
        injection H as ->. by repeat split.
      * intros d _ [= <-]. exact Hlast.
    + split; [| intros d _ [=]]. intros d H. apply Hno in H.
      by apply elem_of_nil in H.
  - split; [| intros d [=]]. intros d H. exfalso.
    rewrite <- (app_nil_r (iterations k)) in H. apply Hno in H.
    by apply elem_of_nil in H.
  - split; [| intros d [=]]. intros d H. exfalso. apply Hno in H.
    apply elem_of_cons in H as [H | H]; [discriminate |].
    by apply elem_of_nil in H.
  - split; [| intros d [=]]. intros d H. exfalso. apply Hno in H.
    unfold iteration_calls in H.
    repeat (apply elem_of_cons in H as [H | H]; [discriminate |]).
    by apply elem_of_nil in H.
Qed.

Section BoundNamespace.

Variable globals : gset string.
Variable inherited_defaults : list ParentParser → gmap string PyVal.
Variable parse_args : Parser → list string → flags.t.
Variable evaluate_results : nat → gmap string Q.
Variable past_stop_threshold : option Q → Q → bool.
Hypothesis train_bound : "train_input_fn" ∈ globals.
Hypothesis eval_bound : "eval_input_fn" ∈ globals.

Local Abbreviation loop :=
  (train_eval_loop globals evaluate_results past_stop_threshold).
Local Abbreviation going := (keeps_going evaluate_results past_stop_threshold).
Local Abbreviation stopping := (stops_at evaluate_results past_stop_threshold).

Lemma loop_step (fl : flags.t) (n i : nat) :
  going fl i →
  loop fl (S n) i =
    (iteration_calls ++ trace (loop fl n (S i)), outcome (loop fl n (S i))).
Proof.
  intros (a & Ha & Hp). simpl. unfold load_global, getitem.
  rewrite (bool_decide_eq_true_2 _ train_bound),
          (bool_decide_eq_true_2 _ eval_bound), Ha.
  simpl. rewrite Hp. by destruct (train_eval_loop _ _ _ fl n (S i)).
Qed.

Lemma loop_stop (fl : flags.t) (n i : nat) :
  stopping fl i → loop fl (S n) i = (iteration_calls, inr tt).
Proof.
  intros (a & Ha & Hp). simpl. unfold load_global, getitem.
  rewrite (bool_decide_eq_true_2 _ train_bound),
          (bool_decide_eq_true_2 _ eval_bound), Ha.
  simpl. by rewrite Hp.
Qed.

Lemma loop_no_accuracy (fl : flags.t) (n i : nat) :
  evaluate_results i !! "accuracy" = None →
  loop fl (S n) i = (iteration_calls, inl accuracy_error).
Proof.
  intros Ha. simpl. unfold load_global, getitem.
  rewrite (bool_decide_eq_true_2 _ train_bound),
          (bool_decide_eq_true_2 _ eval_bound), Ha.
  reflexivity.
Qed.

(** [m] iterations that keep going, then whatever the rest of the loop
    does. *)
Lemma loop_going (fl : flags.t) (m n i : nat) :
  (∀ j, (j < m)%nat → going fl (i + j)) →
  loop fl (m + n) i =
    (iterations m ++ trace (loop fl n (i + m)), outcome (loop fl n (i + m))).
Proof.
  revert i. induction m as [| m IH]; intros i Hg.
  - rewrite Nat.add_0_r. simpl. by destruct (train_eval_loop _ _ _ fl n i).
  - cbn [Nat.add]. rewrite loop_step.
    2:{ specialize (Hg 0%nat). rewrite Nat.add_0_r in Hg. apply Hg. lia. }
    rewrite IH.
    2:{ intros j Hj. replace (S i + j)%nat with (i + S j)%nat by lia.
        apply Hg. lia. }
    replace (S i + m)%nat with (i + S m)%nat by lia.
    cbn [iterations trace outcome fst snd]. by rewrite <- app_assoc.
Qed.

End BoundNamespace.

(** X17: how many iterations run in a namespace that binds both input
    functions.  While no evaluation is past the threshold the loop runs
    all [train_epochs // epochs_between_evals] iterations; the first
    evaluation past the threshold ends it, [m + 1] iterations having run;
    either way the export follows and the run ends normally. *)
Theorem main_iteration_count (globals : gset string)
    (inherited_defaults : list ParentParser → gmap string PyVal)
    (parse_args : Parser → list string → flags.t)
    (evaluate_results : nat → gmap string Q)
    (past_stop_threshold : option Q → Q → bool) (argv : list string) :
  let parser := MNISTArgParser inherited_defaults true in
  let fl := parse_args parser (tail argv) in
  let n := Z.to_nat (flags.train_epochs fl / flags.epochs_between_evals fl) in
  let run := main globals inherited_defaults parse_args evaluate_results
               past_stop_threshold argv in
  "train_input_fn" ∈ globals →
  "eval_input_fn" ∈ globals →
  flags.epochs_between_evals fl ≠ 0 →
  ((∀ j, (j < n)%nat → keeps_going evaluate_results past_stop_threshold fl j) →
   ∃ est, run = (startup_calls parser argv est fl ++ iterations n
                   ++ export_calls (flags.export_dir fl), inr tt)) ∧
  (∀ m, (m < n)%nat →
        (∀ j, (j < m)%nat →
              keeps_going evaluate_results past_stop_threshold fl j) →
        stops_at evaluate_results past_stop_threshold fl m →
        ∃ est, run = (startup_calls parser argv est fl ++ iterations (S m)
                        ++ export_calls (flags.export_dir fl), inr tt)).
Proof.
  intros parser fl n run Ht He Hz. subst run.
  destruct (main_after_loop globals inherited_defaults parse_args
              evaluate_results past_stop_threshold argv Hz) as (est & Hrun).
  fold parser fl n in Hrun.
  split.
  - intros Hg. exists est. rewrite Hrun.
    pose proof (loop_going globals evaluate_results past_stop_threshold Ht He
                  fl n 0 0 Hg) as Hl.
    rewrite Nat.add_0_r in Hl. rewrite Hl.
    cbn [train_eval_loop trace outcome fst snd mret M_ret].
    by rewrite app_nil_r.
  - intros m Hm Hg Hs. exists est. rewrite Hrun.
    pose proof (loop_going globals evaluate_results past_stop_threshold Ht He
                  fl m (S (n - S m)) 0 Hg) as Hl.
    replace (m + S (n - S m))%nat with n in Hl by lia. rewrite Hl.
    rewrite (loop_stop globals evaluate_results past_stop_threshold Ht He
               fl (n - S m) (0 + m) Hs).
    cbn [trace outcome fst snd].
    replace (iterations (S m)) with (iterations m ++ iteration_calls);
      [reflexivity |].
    clear. induction m as [| m IH]; [reflexivity |].
    cbn [iterations] in *. by rewrite <- app_assoc, IH.
Qed.

(** X18: in a namespace that binds both input functions, an evaluation
    result without 'accuracy' ends the run with the KeyError of line 239,
    after that iteration's train, evaluate and print calls and without any
    export. *)
Theorem main_missing_accuracy (globals : gset string)
    (inherited_defaults : list ParentParser → gmap string PyVal)
    (parse_args : Parser → list string → flags.t)
    (evaluate_results : nat → gmap string Q)
    (past_stop_threshold : option Q → Q → bool) (argv : list string) (m : nat) :
  let parser := MNISTArgParser inherited_defaults true in
  let fl := parse_args parser (tail argv) in
  let n := Z.to_nat (flags.train_epochs fl / flags.epochs_between_evals fl) in
  "train_input_fn" ∈ globals →
  "eval_input_fn" ∈ globals →
  flags.epochs_between_evals fl ≠ 0 →
  (m < n)%nat →
  (∀ j, (j < m)%nat → keeps_going evaluate_results past_stop_threshold fl j) →
  evaluate_results m !! "accuracy" = None →
  ∃ est,
    main globals inherited_defaults parse_args evaluate_results
      past_stop_threshold argv =
    (startup_calls parser argv est fl ++ iterations m ++ iteration_calls,
     inl accuracy_error).
Proof.
  intros parser fl n Ht He Hz Hm Hg Ha.
  destruct (main_after_loop globals inherited_defaults parse_args
              evaluate_results past_stop_threshold argv Hz) as (est & Hrun).
  fold parser fl n in Hrun. exists est. rewrite Hrun.
  pose proof (loop_going globals evaluate_results past_stop_threshold Ht He
                fl m (S (n - S m)) 0 Hg) as Hl.
  replace (m + S (n - S m))%nat with n in Hl by lia. rewrite Hl.
  rewrite (loop_no_accuracy globals evaluate_results past_stop_threshold Ht He
             fl (n - S m) (0 + m) Ha).
  reflexivity.
Qed.

Lemma main_failure_modes_witness :
  flags.epochs_between_evals zero_interval_flags = 0 ∧
  outcome (main module_globals no_inherited_defaults zero_interval_parse_args
             example_evaluate_results example_past_stop_threshold example_argv) =
  inl zero_division.
Proof.
  split; [reflexivity |].
  apply (proj1 (proj2 (main_failure_modes module_globals no_inherited_defaults
                         zero_interval_parse_args example_evaluate_results
                         example_past_stop_threshold example_argv))).
  reflexivity.
Defined.

Lemma main_zero_epochs_between_evals_witness :
  ∃ est,
    main module_globals no_inherited_defaults zero_interval_parse_args
      example_evaluate_results example_past_stop_threshold example_argv =
    (startup_calls (MNISTArgParser no_inherited_defaults true) example_argv est
       zero_interval_flags,
     inl zero_division).
Proof.
  apply (main_zero_epochs_between_evals module_globals no_inherited_defaults
           zero_interval_parse_args example_evaluate_results
           example_past_stop_threshold example_argv).
  reflexivity.
Defined.

Lemma main_no_training_witness :
  ∃ est,
    main module_globals no_inherited_defaults short_parse_args
      example_evaluate_results example_past_stop_threshold example_argv =
    (startup_calls (MNISTArgParser no_inherited_defaults true) example_argv est
       short_flags
       ++ [EvPlaceholder float32 [None; Some 28; Some 28];
           EvBuildServingInputFn ["image"];
           EvExportSavedModel "/tmp/mnist_saved_model"],
     inr tt).
Proof.
  apply (main_no_training module_globals no_inherited_defaults short_parse_args
           example_evaluate_results example_past_stop_threshold example_argv);
    reflexivity.
Defined.

Lemma main_evaluate_follows_train_witness :
  trace (main bound_globals no_inherited_defaults example_parse_args
           example_evaluate_results example_past_stop_threshold example_argv)
    !! 4%nat = Some (EvEvaluate "eval_input_fn") ∧
  trace (main bound_globals no_inherited_defaults example_parse_args
           example_evaluate_results example_past_stop_threshold example_argv)
    !! 3%nat = Some (EvTrain "train_input_fn").
Proof.
  assert (H : trace (main bound_globals no_inherited_defaults example_parse_args
                       example_evaluate_results example_past_stop_threshold
                       example_argv)
                !! 4%nat = Some (EvEvaluate "eval_input_fn"))
    by (vm_compute; reflexivity).
  split; [exact H |].
  destruct (main_evaluate_follows_train bound_globals no_inherited_defaults
              example_parse_args example_evaluate_results
              example_past_stop_threshold example_argv 4%nat "eval_input_fn" H)
    as (_ & q & Hq & Ht).
  injection Hq as <-. exact Ht.
Defined.

Lemma main_export_last_witness :
  flags.export_dir short_flags = Some "/tmp/mnist_saved_model" ∧
  last (trace (main module_globals no_inherited_defaults short_parse_args
                 example_evaluate_results example_past_stop_threshold
                 example_argv)) =
  Some (EvExportSavedModel "/tmp/mnist_saved_model").
Proof.
  split; [reflexivity |].
  apply (proj2 (main_export_last module_globals no_inherited_defaults
                  short_parse_args example_evaluate_results
                  example_past_stop_threshold example_argv));
    [vm_compute |]; reflexivity.
Defined.

Lemma main_iteration_count_witness :
  ∃ est,
    main bound_globals no_inherited_defaults threshold_parse_args
      improving_evaluate_results example_past_stop_threshold example_argv =
    (startup_calls (MNISTArgParser no_inherited_defaults true) example_argv est
       threshold_flags ++ iterations 3 ++ [],
     inr tt).
Proof.
  apply (proj2 (main_iteration_count bound_globals no_inherited_defaults
                  threshold_parse_args improving_evaluate_results
                  example_past_stop_threshold example_argv
                  ltac:(by apply (bool_decide_unpack _); vm_compute)
                  ltac:(by apply (bool_decide_unpack _); vm_compute)
                  ltac:(discriminate)) 2%nat).
  - vm_compute. lia.
  - intros j Hj. exists 0.9%Q.
    destruct j as [| [| j]]; [split; reflexivity | split; reflexivity | lia].
  - exists 0.99%Q. split; reflexivity.
Defined.

Lemma main_missing_accuracy_witness :
  ∃ est,
    main bound_globals no_inherited_defaults example_parse_args
      no_accuracy_results example_past_stop_threshold example_argv =
    (startup_calls (MNISTArgParser no_inherited_defaults true) example_argv est
       example_flags ++ iterations 0 ++ iteration_calls,
     inl accuracy_error).
Proof.
  apply (main_missing_accuracy bound_globals no_inherited_defaults
           example_parse_args no_accuracy_results example_past_stop_threshold
           example_argv 0%nat).
  - by apply (bool_decide_unpack _); vm_compute.
  - by apply (bool_decide_unpack _); vm_compute.
  - discriminate.
  - vm_compute. lia.
  - intros j Hj. lia.
  - reflexivity.
Defined.

(** ** The command-line surface *)








Lemma iterations_no_estimator (k : nat) :
  filter is_new_estimator (iterations k) = [].
Proof.
  induction k as [| k IH]; [reflexivity |].
  cbn [iterations]. rewrite filter_app, IH. reflexivity.
Qed.

(** X19: the estimator [main] constructs always fits the [--tpu] flag.
    Every run constructs exactly one estimator: a TPUEstimator, with the
    resolver of [flags.tpu] and [use_tpu] true in its params, when
    [flags.tpu] is given, and a plain Estimator with [use_tpu] false
    otherwise. *)
Theorem main_estimator_fits_tpu_flag (globals : gset string)
    (inherited_defaults : list ParentParser → gmap string PyVal)
    (parse_args : Parser → list string → flags.t)
    (evaluate_results : nat → gmap string Q)
    (past_stop_threshold : option Q → Q → bool) (argv : list string) :
  let fl := parse_args (MNISTArgParser inherited_defaults true) (tail argv) in
  ∃ est,
    filter is_new_estimator
      (trace (main globals inherited_defaults parse_args evaluate_results
                past_stop_threshold argv)) = [EvNewEstimator est] ∧
    fits_tpu_flag fl est.
Proof.
  intros fl.
  destruct (main_cases globals inherited_defaults parse_args evaluate_results
              past_stop_threshold argv) as (est & k & Hest & _ & Hc).
  fold fl in Hest, Hc. exists est.
  split.
  - assert (Hs : ∀ t, filter is_new_estimator t = [] →
              filter is_new_estimator
                (startup_calls (MNISTArgParser inherited_defaults true) argv
                   est fl ++ iterations k ++ t) = [EvNewEstimator est]).
    { intros t Ht. rewrite !filter_app, iterations_no_estimator, Ht.
      reflexivity. }
    destruct Hc as [[_ ->] | [_ [-> | [_ [[_ ->] | [[_ ->] | [_ ->]]]]]]];
      simpl trace.
    + reflexivity.
    + apply Hs. rewrite export_model_calls.
      by destruct (flags.export_dir fl).
    + rewrite <- (app_nil_r (iterations k)). by apply Hs.
    + by apply Hs.
    + by apply Hs.
  - revert Hest. unfold construct_estimator.
    destruct (flags.tpu fl) as [name |] eqn:Htpu; simpl;
      intros [= <-]; simpl; rewrite ?Htpu; repeat split; eauto.
Qed.

Lemma main_estimator_fits_tpu_flag_witness :
  ∃ est,
    filter is_new_estimator
      (trace (main module_globals no_inherited_defaults tpu_parse_args
                example_evaluate_results example_past_stop_threshold
                example_argv)) = [EvNewEstimator est] ∧
    fits_tpu_flag tpu_flags est.
Proof.
  exact (main_estimator_fits_tpu_flag module_globals no_inherited_defaults
           tpu_parse_args example_evaluate_results
           example_past_stop_threshold example_argv).
Defined.

